(** * Google Workspace MCP server

    A shallow embedding of [src/server.py]: the Python values the handlers
    receive from the Directory API, the exceptions they catch, the error
    translator, the password generator, the user formatter and the tool
    handlers, followed by the properties of the specification.

    Conventions.  A Python [str] is modelled by its UTF-8 encoding (Rocq's
    [string] is a list of bytes); a [dict] with string keys by an association
    list whose keys are distinct, in insertion order; an [int] by [Z].
    [gw_list_org_units] comes last among the definitions, with the part of
    [sorted] that is not about strings left to the runtime. *)

From Stdlib Require Import List String Ascii ZArith NArith Lia Bool.
From Stdlib Require Import DecimalString PrimFloat.
From Stdlib Require Import Sorted Permutation.
From Stdlib.Strings Require Import Byte.
Import ListNotations.
Local Open Scope string_scope.
Set Warnings "-register-all".

(** ** Python values and exceptions *)

(** What [json.loads] and the API client's [execute()] hand back. *)
Inductive json : Type :=
| JNull
| JBool (b : bool)
| JInt (z : Z)
| JFloat (f : float)
| JStr (s : string)
| JArr (items : list json)
| JObj (fields : list (string * json)).

(** The exception classes the code tells apart, by [isinstance] or by name.
    [OtherError] stands for any class that derives from none of the others. *)
Inductive exn_class : Type :=
| FileNotFoundError
| ValueError
| JSONDecodeError
| UnicodeDecodeError
| AttributeError
| TypeError
| IndexError
| OtherError (name : string).

(** An exception instance.  [HttpError] carries [e.resp.status], [e.content]
    and [str(e)]; every other exception carries its class and [str(e)]. *)
Inductive exn : Type :=
| HttpError (status : Z) (content : list byte) (text : string)
| PyExn (cls : exn_class) (text : string).

Inductive result (A : Type) : Type :=
| Ok (a : A)
| Raise (e : exn).
Arguments Ok {A} a.
Arguments Raise {A} e.

Definition rbind {A B} (r : result A) (k : A -> result B) : result B :=
  match r with
  | Ok a => k a
  | Raise e => Raise e
  end.

Definition nl : string := String "010"%char EmptyString.

Definition class_name (c : exn_class) : string :=
  match c with
  | FileNotFoundError => "FileNotFoundError"
  | ValueError => "ValueError"
  | JSONDecodeError => "JSONDecodeError"
  | UnicodeDecodeError => "UnicodeDecodeError"
  | AttributeError => "AttributeError"
  | TypeError => "TypeError"
  | IndexError => "IndexError"
  | OtherError name => name
  end.

(** [isinstance(e, ValueError)]: both decode errors derive from it. *)
Definition isinstance_ValueError (c : exn_class) : bool :=
  match c with
  | ValueError | JSONDecodeError | UnicodeDecodeError => true
  | _ => false
  end.

Definition isinstance_FileNotFoundError (c : exn_class) : bool :=
  match c with
  | FileNotFoundError => true
  | _ => false
  end.

(** [type(v).__name__] *)
Definition type_name (v : json) : string :=
  match v with
  | JNull => "NoneType"
  | JBool _ => "bool"
  | JInt _ => "int"
  | JFloat _ => "float"
  | JStr _ => "str"
  | JArr _ => "list"
  | JObj _ => "dict"
  end.

(** Truth value of a Python object, as [if v:] and [not v] test it. *)
Definition truthy (v : json) : bool :=
  match v with
  | JNull => false
  | JBool b => b
  | JInt z => negb (z =? 0)%Z
  | JFloat f => negb (PrimFloat.eqb f 0%float)
  | JStr s => negb (String.eqb s EmptyString)
  | JArr items => match items with [] => false | _ => true end
  | JObj fields => match fields with [] => false | _ => true end
  end.

Fixpoint assoc (k : string) (d : list (string * json)) : option json :=
  match d with
  | [] => None
  | (k', v) :: d' => if String.eqb k k' then Some v else assoc k d'
  end.

(** [d.get(k, default)] on a dictionary. *)
Definition dict_get (d : list (string * json)) (k : string) (default : json) : json :=
  match assoc k d with
  | Some v => v
  | None => default
  end.

Definition no_attribute_get (v : json) : exn :=
  PyExn AttributeError ("'" ++ type_name v ++ "' object has no attribute 'get'").

(** [v.get(k, default)] on any object: only a dictionary has the method. *)
Definition py_get (v : json) (k : string) (default : json) : result json :=
  match v with
  | JObj d => Ok (dict_get d k default)
  | _ => Raise (no_attribute_get v)
  end.

Definition is_continuation (c : ascii) : bool :=
  let n := N_of_ascii c in ((128 <=? n) && (n <=? 191))%N.

Definition starts_with_continuation (s : string) : bool :=
  match s with
  | EmptyString => false
  | String c _ => is_continuation c
  end.

(** The characters (code points) of a string, each as a string. *)
Fixpoint utf8_chars (s : string) : list string :=
  match s with
  | EmptyString => []
  | String c rest =>
      match utf8_chars rest with
      | [] => [String c EmptyString]
      | x :: xs =>
          if starts_with_continuation x then String c x :: xs
          else String c EmptyString :: x :: xs
      end
  end.

(** Iterating an object, as [for u in v] does: the items of a list, the
    characters of a string, the keys of a dictionary. *)
Definition py_iter (v : json) : result (list json) :=
  match v with
  | JArr items => Ok items
  | JStr s => Ok (map JStr (utf8_chars s))
  | JObj fields => Ok (map (fun kv => JStr (fst kv)) fields)
  | _ => Raise (PyExn TypeError ("'" ++ type_name v ++ "' object is not iterable"))
  end.

(** [len(v)] *)
Definition py_len (v : json) : result nat :=
  match v with
  | JArr items => Ok (List.length items)
  | JStr s => Ok (List.length (utf8_chars s))
  | JObj fields => Ok (List.length fields)
  | _ => Raise (PyExn TypeError ("object of type '" ++ type_name v ++ "' has no len()"))
  end.

Definition string_of_Z (z : Z) : string := NilZero.string_of_int (Z.to_int z).
Definition string_of_nat (n : nat) : string := NilZero.string_of_uint (Nat.to_uint n).

(** Strict UTF-8 well-formedness, as [bytes.decode()] checks it: no overlong
    form, no surrogate, nothing above U+10FFFF. *)
Definition in_range (lo hi b : N) : bool := ((lo <=? b) && (b <=? hi))%N.

Fixpoint utf8_valid (bs : list N) : bool :=
  match bs with
  | [] => true
  | b0 :: r0 =>
      if (b0 <? 128)%N then utf8_valid r0
      else if in_range 194 223 b0 then
        match r0 with
        | b1 :: r1 => in_range 128 191 b1 && utf8_valid r1
        | _ => false
        end
      else if in_range 224 239 b0 then
        match r0 with
        | b1 :: b2 :: r2 =>
            in_range (if (b0 =? 224)%N then 160 else 128)
                     (if (b0 =? 237)%N then 159 else 191) b1
            && in_range 128 191 b2 && utf8_valid r2
        | _ => false
        end
      else if in_range 240 244 b0 then
        match r0 with
        | b1 :: b2 :: b3 :: r3 =>
            in_range (if (b0 =? 240)%N then 144 else 128)
                     (if (b0 =? 244)%N then 143 else 191) b1
            && in_range 128 191 b2 && in_range 128 191 b3 && utf8_valid r3
        | _ => false
        end
      else false
  end.

(** [b.decode()] succeeds exactly on well-formed UTF-8 and is then the
    identity on the encoding. *)
Definition utf8_ok (bs : list byte) : bool := utf8_valid (map Byte.to_N bs).

(** [sep.join(v)]: every element must be a string. *)
Fixpoint str_items (i : nat) (items : list json) : result (list string) :=
  match items with
  | [] => Ok []
  | JStr s :: rest => rbind (str_items (S i) rest) (fun ss => Ok (s :: ss))
  | v :: _ =>
      Raise (PyExn TypeError ("sequence item " ++ string_of_nat i
                              ++ ": expected str instance, " ++ type_name v ++ " found"))
  end.

Definition py_join (sep : string) (v : json) : result string :=
  match v with
  | JArr items => rbind (str_items 0 items) (fun ss => Ok (String.concat sep ss))
  | JStr s => Ok (String.concat sep (utf8_chars s))
  | JObj fields => Ok (String.concat sep (map fst fields))
  | _ => Raise (PyExn TypeError "can only join an iterable")
  end.

Definition opt_str (o : option string) : json :=
  match o with Some s => JStr s | None => JNull end.
Definition opt_int (o : option Z) : json :=
  match o with Some z => JInt z | None => JNull end.
Definition opt_bool (o : option bool) : json :=
  match o with Some b => JBool b | None => JNull end.

(** ** Remote calls and the world around a handler *)

(** The Directory API methods the handlers build requests for. *)
Inductive api_method : Type :=
| users_list | users_get | users_insert | users_delete | users_update
| users_aliases_list | users_aliases_insert | users_aliases_delete
| groups_list
| members_list | members_insert | members_delete
| orgunits_list.

(** A request: the method and its keyword arguments, in source order. *)
Record request : Type := Request {
  method : api_method;
  kwargs : list (string * json)
}.

(** What a handler does to the outside, in order: it asks for a client
    handle ([get_directory_service]) and it executes requests. *)
Inductive event : Type :=
| Acquire
| Call (r : request).

Definition SCOPES : list string :=
  [ "https://www.googleapis.com/auth/admin.directory.user";
    "https://www.googleapis.com/auth/admin.directory.group";
    "https://www.googleapis.com/auth/admin.directory.orgunit";
    "https://www.googleapis.com/auth/admin.directory.user.alias" ].

(** Everything the module reads but does not define: the three settings taken
    from the process environment at import time, the Python runtime functions
    that are not modelled in detail, and the collaborators (credential
    provider, directory service, entropy source). *)
Record world : Type := World {
  SERVICE_ACCOUNT_FILE : string;
  ADMIN_EMAIL : string;
  CUSTOMER_ID : string;
  (** [json.loads] on a decoded body *)
  json_loads : string -> result json;
  (** [repr] of a value, used by [str] on floats, lists and dictionaries *)
  py_repr : json -> string;
  (** [str] of the error [bytes.decode] raises on ill-formed input *)
  decode_error_text : list byte -> string;
  (** loading the credential file for the scopes, delegating to the subject
      and building the client: file, scopes, subject *)
  authorize : string -> list string -> string -> result unit;
  (** the directory service answering a request, given all that happened
      before it *)
  execute : list event -> request -> result json;
  (** the secure random source: the value behind the k-th draw *)
  entropy : nat -> nat
}.

Record state : Type := State {
  trace : list event;
  draws : nat
}.

Definition initial : state := State [] 0.

Definition log (ev : event) (st : state) : state :=
  State (trace st ++ [ev]) (draws st).

(** Handlers run in a state-and-exception monad. *)
Definition M (A : Type) : Type := state -> result A * state.

Definition ret {A} (a : A) : M A := fun st => (Ok a, st).
Definition raise {A} (e : exn) : M A := fun st => (Raise e, st).
Definition lift {A} (r : result A) : M A := fun st => (r, st).

Definition bind {A B} (m : M A) (k : A -> M B) : M B :=
  fun st =>
    match m st with
    | (Ok a, st') => k a st'
    | (Raise e, st') => (Raise e, st')
    end.

(** [try: body  except Exception as e: handler(e)] *)
Definition try_except {A} (body : M A) (handler : exn -> M A) : M A :=
  fun st =>
    match body st with
    | (Ok a, st') => (Ok a, st')
    | (Raise e, st') => handler e st'
    end.

Declare Scope result_scope.
Delimit Scope result_scope with result.
Declare Scope M_scope.
Delimit Scope M_scope with M.
Notation "x <- e ;; k" := (rbind e (fun x => k))
  (at level 61, e at next level, right associativity) : result_scope.
Notation "x <- e ;; k" := (bind e (fun x => k))
  (at level 61, e at next level, right associativity) : M_scope.
Notation "e ;; k" := (bind e (fun _ => k))
  (at level 61, right associativity) : M_scope.

(** ** Input records of the tools (the pydantic models) *)

Module ListUsersInput.
Record t : Type := Build {
  query : option string;
  max_results : option Z;
  order_by : option string;
  show_suspended : option bool
}.
End ListUsersInput.

Module GetUserInput.
Record t : Type := Build { user_key : string }.
End GetUserInput.

Module CreateUserInput.
Record t : Type := Build {
  primary_email : string;
  first_name : string;
  last_name : string;
  password : option string;
  org_unit_path : option string;
  change_password_at_next_login : option bool;
  recovery_email : option string;
  recovery_phone : option string
}.
End CreateUserInput.

Module DeleteUserInput.
Record t : Type := Build { user_key : string; confirm : bool }.
End DeleteUserInput.

Module SuspendUserInput.
Record t : Type := Build { user_key : string; suspend : bool }.
End SuspendUserInput.

Module ResetPasswordInput.
Record t : Type := Build {
  user_key : string;
  new_password : option string;
  force_change : option bool
}.
End ResetPasswordInput.

Module AliasAction.
Inductive t : Type := ADD | REMOVE | LIST.
Definition eqb (a b : t) : bool :=
  match a, b with
  | ADD, ADD | REMOVE, REMOVE | LIST, LIST => true
  | _, _ => false
  end.
End AliasAction.

Module ManageAliasInput.
Record t : Type := Build {
  user_key : string;
  action : AliasAction.t;
  alias_email : option string
}.
End ManageAliasInput.

Module ListGroupsInput.
Record t : Type := Build { user_key : option string; max_results : option Z }.
End ListGroupsInput.

Module GroupMemberAction.
Inductive t : Type := ADD | REMOVE | LIST.
Definition eqb (a b : t) : bool :=
  match a, b with
  | ADD, ADD | REMOVE, REMOVE | LIST, LIST => true
  | _, _ => false
  end.
End GroupMemberAction.

Module GroupMemberRole.
Inductive t : Type := MEMBER | MANAGER | OWNER.
Definition value (r : t) : string :=
  match r with
  | MEMBER => "MEMBER"
  | MANAGER => "MANAGER"
  | OWNER => "OWNER"
  end.
End GroupMemberRole.

Module ManageGroupMemberInput.
Record t : Type := Build {
  group_key : string;
  action : GroupMemberAction.t;
  member_email : option string;
  role : option GroupMemberRole.t
}.
End ManageGroupMemberInput.

Module MoveUserOrgInput.
Record t : Type := Build { user_key : string; org_unit_path : string }.
End MoveUserOrgInput.

(** ** The server *)

Section Server.

Variable w : world.

(** [str(v)], as an f-string renders a value. *)
Definition py_str (v : json) : string :=
  match v with
  | JStr s => s
  | JNull => "None"
  | JBool true => "True"
  | JBool false => "False"
  | JInt z => string_of_Z z
  | _ => py_repr w v
  end.

Definition bytes_decode (bs : list byte) : result string :=
  if utf8_ok bs then Ok (string_of_list_byte bs)
  else Raise (PyExn UnicodeDecodeError (decode_error_text w bs)).

Definition get_directory_service : M unit :=
  fun st =>
    let st' := log Acquire st in
    if negb (truthy (JStr (ADMIN_EMAIL w))) then
      (Raise (PyExn ValueError
                ("GOOGLE_ADMIN_EMAIL non configurato. "
                 ++ "Impostalo con l'email dell'admin che ha la delega domain-wide.")),
       st')
    else (authorize w (SERVICE_ACCOUNT_FILE w) SCOPES (ADMIN_EMAIL w), st').

(** Building a request on the client handle and running [execute()] on it. *)
Definition call (m : api_method) (kw : list (string * json)) : M json :=
  fun st => (execute w (trace st) (Request m kw), log (Call (Request m kw)) st).

(** The [try] block of [handle_google_error]: the message of the structured
    error body, or [str(e)] when the body is not JSON or has another shape. *)
Definition error_message (content : list byte) (text : string) : result json :=
  let parsed :=
    (body <- bytes_decode content ;;
     detail <- json_loads w body ;;
     err <- py_get detail "error" (JObj []) ;;
     py_get err "message" (JStr text))%result in
  match parsed with
  | Ok message => Ok message
  | Raise (PyExn JSONDecodeError _) => Ok (JStr text)
  | Raise (PyExn AttributeError _) => Ok (JStr text)
  | Raise e => Raise e
  end.

Definition error_map (message : string) : list (Z * string) :=
  [ (400%Z, "Richiesta non valida: " ++ message);
    (403%Z, "Permessi insufficienti: " ++ message
            ++ ". Verifica la delega domain-wide del Service Account.");
    (404%Z, "Risorsa non trovata: " ++ message);
    (409%Z, "Conflitto: " ++ message ++ " (l'utente/gruppo potrebbe già esistere)");
    (429%Z, "Rate limit superato. Riprova tra qualche secondo.") ].

Fixpoint map_get (k : Z) (m : list (Z * string)) (default : string) : string :=
  match m with
  | [] => default
  | (k', v) :: m' => if (k =? k')%Z then v else map_get k m' default
  end.

Definition handle_google_error (e : exn) : result string :=
  match e with
  | HttpError status content text =>
      (m <- error_message content text ;;
       let message := py_str m in
       Ok (map_get status (error_map message)
             ("Errore API Google (HTTP " ++ string_of_Z status ++ "): " ++ message)))%result
  | PyExn cls text =>
      if isinstance_FileNotFoundError cls then
        Ok ("File credenziali non trovato: " ++ SERVICE_ACCOUNT_FILE w
            ++ ". Verifica il path.")
      else if isinstance_ValueError cls then
        Ok ("Errore configurazione: " ++ text)
      else
        Ok ("Errore imprevisto: " ++ class_name cls ++ ": " ++ text)
  end.

Definition chars : string :=
  "abcdefghijklmnopqrstuvwxyzABCDEFGHIJKLMNOPQRSTUVWXYZ" ++ "0123456789" ++ "!@#$%&*".

(** [secrets.choice(seq)] *)
Definition secrets_choice (seq : string) : M ascii :=
  fun st =>
    match seq with
    | EmptyString =>
        (Raise (PyExn IndexError "Cannot choose from an empty sequence"), st)
    | String c0 _ =>
        let i := Nat.modulo (entropy w (draws st)) (String.length seq) in
        (Ok (match String.get i seq with Some c => c | None => c0 end),
         State (trace st) (S (draws st)))
    end.

Fixpoint choices (seq : string) (n : nat) : M string :=
  match n with
  | O => ret EmptyString
  | S n' =>
      (c <- secrets_choice seq ;;
       rest <- choices seq n' ;;
       ret (String c rest))%M
  end.

Definition default_length : Z := 16.

(** [range(length)] is empty for a negative [length]. *)
Definition generate_temp_password (length : Z) : M string :=
  choices chars (Z.to_nat length).

Definition format_user (user : json) : result string :=
  (name <- py_get user "name" (JObj []) ;;
   primaryEmail <- py_get user "primaryEmail" (JStr "N/A") ;;
   fullName <- py_get name "fullName" (JStr "N/A") ;;
   id <- py_get user "id" (JStr "N/A") ;;
   suspended <- py_get user "suspended" JNull ;;
   isAdmin <- py_get user "isAdmin" JNull ;;
   lastLoginTime <- py_get user "lastLoginTime" (JStr "Mai") ;;
   creationTime <- py_get user "creationTime" (JStr "N/A") ;;
   let lines :=
     [ "📧 **" ++ py_str primaryEmail ++ "**";
       "   Nome: " ++ py_str fullName;
       "   ID: " ++ py_str id;
       "   Stato: " ++ (if negb (truthy suspended) then "🟢 Attivo" else "🔴 Sospeso");
       "   Admin: " ++ (if truthy isAdmin then "Sì" else "No");
       "   Ultimo accesso: " ++ py_str lastLoginTime;
       "   Creazione: " ++ py_str creationTime ] in
   aliases <- py_get user "aliases" (JArr []) ;;
   lines <- (if truthy aliases then
               joined <- py_join ", " aliases ;;
               Ok (List.app lines ["   Alias: " ++ joined])
             else Ok lines) ;;
   org <- py_get user "orgUnitPath" (JStr "/") ;;
   let lines :=
     if truthy org then List.app lines ["   Unità org.: " ++ py_str org] else lines in
   Ok (String.concat nl lines))%result.

(** The [except Exception as e: return handle_google_error(e)] clause that
    closes every handler.  An exception the translator itself raises leaves
    the handler. *)
Definition translated (e : exn) : M string := lift (handle_google_error e).

(** [[u for u in users if not u.get("suspended")]] on the items of [users] *)
Fixpoint not_suspended (items : list json) : result (list json) :=
  match items with
  | [] => Ok []
  | u :: rest =>
      (s <- py_get u "suspended" JNull ;;
       kept <- not_suspended rest ;;
       Ok (if negb (truthy s) then u :: kept else kept))%result
  end.

Fixpoint format_users (items : list json) : result (list string) :=
  match items with
  | [] => Ok []
  | u :: rest =>
      (block <- format_user u ;;
       blocks <- format_users rest ;;
       Ok (block :: blocks))%result
  end.

Definition users_header (n : nat) : string :=
  "## Utenti trovati: " ++ string_of_nat n ++ nl.

Definition users_listing (n : nat) (blocks : list string) : string :=
  String.concat nl (users_header n :: flat_map (fun b => [b; "---"]) blocks).

Definition no_users : string := "Nessun utente trovato con i criteri specificati.".

(** The keyword arguments of the list call. *)
Definition list_users_kwargs (params : ListUsersInput.t) : list (string * json) :=
  let kwargs :=
    [ ("customer", JStr (CUSTOMER_ID w));
      ("maxResults", opt_int (ListUsersInput.max_results params));
      ("orderBy", opt_str (ListUsersInput.order_by params)) ] in
  if truthy (opt_str (ListUsersInput.query params))
  then List.app kwargs [("query", opt_str (ListUsersInput.query params))]
  else kwargs.

Definition gw_list_users (params : ListUsersInput.t) : M string :=
  try_except
    (get_directory_service ;;
     result <- call users_list (list_users_kwargs params) ;;
     users <- lift (py_get result "users" (JArr [])) ;;
     users <- (if negb (truthy (opt_bool (ListUsersInput.show_suspended params)))
               then lift (items <- py_iter users ;;
                          kept <- not_suspended items ;;
                          Ok (JArr kept))%result
               else ret users) ;;
     if negb (truthy users) then ret no_users
     else
       n <- lift (py_len users) ;;
       blocks <- lift (items <- py_iter users ;; format_users items)%result ;;
       ret (users_listing n blocks))%M
    translated.

Definition gw_get_user (params : GetUserInput.t) : M string :=
  try_except
    (get_directory_service ;;
     user <- call users_get [("userKey", JStr (GetUserInput.user_key params))] ;;
     lift (format_user user))%M
    translated.

Definition change_warning : string :=
  "⚠️ L'utente dovrà cambiarla al primo accesso.".

Definition created_text (block password : string) (must_change : bool) : string :=
  "✅ Utente creato con successo!" ++ nl ++ nl
  ++ block ++ nl ++ nl
  ++ "🔑 **Password temporanea**: `" ++ password ++ "`" ++ nl
  ++ (if must_change then change_warning else EmptyString) ++ nl ++ nl
  ++ "Comunica le credenziali al cliente in modo sicuro.".

(** [given or generate_temp_password()] *)
Definition password_or_generated (given : option string) : M string :=
  if truthy (opt_str given)
  then ret (match given with Some s => s | None => EmptyString end)
  else generate_temp_password default_length.

(** The [user_body] dictionary sent to [users().insert]. *)
Definition user_body (params : CreateUserInput.t) (password : string)
  : list (string * json) :=
  let user_body :=
    [ ("primaryEmail", JStr (CreateUserInput.primary_email params));
      ("name", JObj [ ("givenName", JStr (CreateUserInput.first_name params));
                      ("familyName", JStr (CreateUserInput.last_name params)) ]);
      ("password", JStr password);
      ("changePasswordAtNextLogin",
       opt_bool (CreateUserInput.change_password_at_next_login params));
      ("orgUnitPath", opt_str (CreateUserInput.org_unit_path params)) ] in
  let user_body :=
    if truthy (opt_str (CreateUserInput.recovery_email params))
    then List.app user_body
           [("recoveryEmail", opt_str (CreateUserInput.recovery_email params))]
    else user_body in
  if truthy (opt_str (CreateUserInput.recovery_phone params))
  then List.app user_body
         [("recoveryPhone", opt_str (CreateUserInput.recovery_phone params))]
  else user_body.

Definition gw_create_user (params : CreateUserInput.t) : M string :=
  try_except
    (get_directory_service ;;
     password <- password_or_generated (CreateUserInput.password params) ;;
     created <- call users_insert [("body", JObj (user_body params password))] ;;
     block <- lift (format_user created) ;;
     ret (created_text block password
            (truthy (opt_bool (CreateUserInput.change_password_at_next_login params)))))%M
    translated.

Definition deletion_cancelled : string :=
  "⛔ Eliminazione annullata. Per procedere, imposta confirm=True." ++ nl
  ++ "Ricorda: l'utente sarà nel cestino per 20 giorni prima dell'eliminazione definitiva.".

Definition deleted_text (user_name user_email : string) : string :=
  "🗑️ Utente eliminato: **" ++ user_name ++ "** (" ++ user_email ++ ")" ++ nl ++ nl
  ++ "L'utente resterà nel cestino per 20 giorni e potrà essere ripristinato." ++ nl
  ++ "Dopo 20 giorni l'eliminazione sarà definitiva.".

Definition gw_delete_user (params : DeleteUserInput.t) : M string :=
  if negb (DeleteUserInput.confirm params) then ret deletion_cancelled
  else
    try_except
      (get_directory_service ;;
       user <- call users_get [("userKey", JStr (DeleteUserInput.user_key params))] ;;
       user_email <- lift (py_get user "primaryEmail"
                             (JStr (DeleteUserInput.user_key params))) ;;
       name <- lift (py_get user "name" (JObj [])) ;;
       user_name <- lift (py_get name "fullName" (JStr "N/A")) ;;
       call users_delete [("userKey", JStr (DeleteUserInput.user_key params))] ;;
       ret (deleted_text (py_str user_name) (py_str user_email)))%M
      translated.

Definition gw_suspend_user (params : SuspendUserInput.t) : M string :=
  try_except
    (get_directory_service ;;
     updated <- call users_update
                  [ ("userKey", JStr (SuspendUserInput.user_key params));
                    ("body", JObj [("suspended", JBool (SuspendUserInput.suspend params))]) ] ;;
     let action :=
       if SuspendUserInput.suspend params then "sospeso 🔴" else "riattivato 🟢" in
     email <- lift (py_get updated "primaryEmail" JNull) ;;
     block <- lift (format_user updated) ;;
     ret ("✅ Utente " ++ action ++ ": **" ++ py_str email ++ "**" ++ nl ++ nl ++ block))%M
    translated.

Definition gw_reset_password (params : ResetPasswordInput.t) : M string :=
  try_except
    (get_directory_service ;;
     password <- password_or_generated (ResetPasswordInput.new_password params) ;;
     updated <- call users_update
                  [ ("userKey", JStr (ResetPasswordInput.user_key params));
                    ("body", JObj [ ("password", JStr password);
                                    ("changePasswordAtNextLogin",
                                     opt_bool (ResetPasswordInput.force_change params)) ]) ] ;;
     email <- lift (py_get updated "primaryEmail" JNull) ;;
     ret ("🔑 Password resettata per: **" ++ py_str email ++ "**" ++ nl ++ nl
          ++ "Nuova password: `" ++ password ++ "`" ++ nl
          ++ (if truthy (opt_bool (ResetPasswordInput.force_change params))
              then "⚠️ L'utente dovrà cambiarla al prossimo accesso."
              else EmptyString) ++ nl ++ nl
          ++ "Comunica la nuova password in modo sicuro."))%M
    translated.

Definition alias_warning : string :=
  "⚠️ Specifica alias_email per aggiungere o rimuovere un alias.".

Fixpoint alias_lines (items : list json) : result (list string) :=
  match items with
  | [] => Ok []
  | a :: rest =>
      (alias <- py_get a "alias" (JStr "N/A") ;;
       lines <- alias_lines rest ;;
       Ok (("- " ++ py_str alias) :: lines))%result
  end.

(** A handler whose last branch can fall off the end of the function returns
    [None] there, as Python does. *)
Definition translated_opt (e : exn) : M (option string) :=
  lift (s <- handle_google_error e ;; Ok (Some s))%result.

Definition gw_manage_alias (params : ManageAliasInput.t) : M (option string) :=
  let user_key := ManageAliasInput.user_key params in
  let alias_email := ManageAliasInput.alias_email params in
  try_except
    (get_directory_service ;;
     if AliasAction.eqb (ManageAliasInput.action params) AliasAction.LIST then
       result <- call users_aliases_list [("userKey", JStr user_key)] ;;
       aliases <- lift (py_get result "aliases" (JArr [])) ;;
       if negb (truthy aliases)
       then ret (Some ("Nessun alias configurato per " ++ user_key ++ "."))
       else
         lines <- lift (items <- py_iter aliases ;; alias_lines items)%result ;;
         ret (Some (String.concat nl (("## Alias per " ++ user_key ++ nl) :: lines)))
     else if negb (truthy (opt_str alias_email)) then ret (Some alias_warning)
     else if AliasAction.eqb (ManageAliasInput.action params) AliasAction.ADD then
       call users_aliases_insert
         [ ("userKey", JStr user_key); ("body", JObj [("alias", opt_str alias_email)]) ] ;;
       ret (Some ("✅ Alias **" ++ py_str (opt_str alias_email)
                  ++ "** aggiunto a " ++ user_key))
     else if AliasAction.eqb (ManageAliasInput.action params) AliasAction.REMOVE then
       call users_aliases_delete
         [ ("userKey", JStr user_key); ("alias", opt_str alias_email) ] ;;
       ret (Some ("🗑️ Alias **" ++ py_str (opt_str alias_email)
                  ++ "** rimosso da " ++ user_key))
     else ret None)%M
    translated_opt.

Fixpoint group_lines (items : list json) : result (list string) :=
  match items with
  | [] => Ok []
  | g :: rest =>
      (members_count <- py_get g "directMembersCount" (JStr "?") ;;
       email <- py_get g "email" JNull ;;
       name <- py_get g "name" (JStr "N/A") ;;
       lines <- group_lines rest ;;
       Ok (("- 👥 **" ++ py_str email ++ "** — " ++ py_str name
            ++ " (" ++ py_str members_count ++ " membri)") :: lines))%result
  end.

Definition gw_list_groups (params : ListGroupsInput.t) : M string :=
  try_except
    (get_directory_service ;;
     let kwargs :=
       if truthy (opt_str (ListGroupsInput.user_key params))
       then [ ("maxResults", opt_int (ListGroupsInput.max_results params));
              ("userKey", opt_str (ListGroupsInput.user_key params)) ]
       else [ ("customer", JStr (CUSTOMER_ID w));
              ("maxResults", opt_int (ListGroupsInput.max_results params)) ] in
     result <- call groups_list kwargs ;;
     groups <- lift (py_get result "groups" (JArr [])) ;;
     if negb (truthy groups) then ret "Nessun gruppo trovato."
     else
       n <- lift (py_len groups) ;;
       lines <- lift (items <- py_iter groups ;; group_lines items)%result ;;
       ret (String.concat nl (("## Gruppi trovati: " ++ string_of_nat n ++ nl) :: lines)))%M
    translated.

Fixpoint member_lines (items : list json) : result (list string) :=
  match items with
  | [] => Ok []
  | m :: rest =>
      (role <- py_get m "role" (JStr "MEMBER") ;;
       status <- py_get m "status" (JStr EmptyString) ;;
       email <- py_get m "email" (JStr "N/A") ;;
       lines <- member_lines rest ;;
       Ok (("- " ++ py_str email ++ " (" ++ py_str role ++ ") " ++ py_str status)
           :: lines))%result
  end.

(** [params.role.value]: the role is optional, and [None] has no [value]. *)
Definition role_value (role : option GroupMemberRole.t) : result string :=
  match role with
  | Some r => Ok (GroupMemberRole.value r)
  | None => Raise (PyExn AttributeError "'NoneType' object has no attribute 'value'")
  end.

Definition gw_manage_group_member (params : ManageGroupMemberInput.t)
  : M (option string) :=
  let group_key := ManageGroupMemberInput.group_key params in
  let member_email := ManageGroupMemberInput.member_email params in
  try_except
    (get_directory_service ;;
     if GroupMemberAction.eqb (ManageGroupMemberInput.action params) GroupMemberAction.LIST
     then
       result <- call members_list [("groupKey", JStr group_key)] ;;
       members <- lift (py_get result "members" (JArr [])) ;;
       if negb (truthy members)
       then ret (Some ("Il gruppo " ++ group_key ++ " non ha membri."))
       else
         lines <- lift (items <- py_iter members ;; member_lines items)%result ;;
         ret (Some (String.concat nl (("## Membri di " ++ group_key ++ nl) :: lines)))
     else if negb (truthy (opt_str member_email)) then
       ret (Some "⚠️ Specifica member_email per aggiungere o rimuovere un membro.")
     else if GroupMemberAction.eqb (ManageGroupMemberInput.action params)
               GroupMemberAction.ADD
     then
       role <- lift (role_value (ManageGroupMemberInput.role params)) ;;
       call members_insert
         [ ("groupKey", JStr group_key);
           ("body", JObj [("email", opt_str member_email); ("role", JStr role)]) ] ;;
       ret (Some ("✅ **" ++ py_str (opt_str member_email) ++ "** aggiunto al gruppo "
                  ++ "**" ++ group_key ++ "** come " ++ role))
     else if GroupMemberAction.eqb (ManageGroupMemberInput.action params)
               GroupMemberAction.REMOVE
     then
       call members_delete
         [ ("groupKey", JStr group_key); ("memberKey", opt_str member_email) ] ;;
       ret (Some ("🗑️ **" ++ py_str (opt_str member_email) ++ "** rimosso dal gruppo **"
                  ++ group_key ++ "**"))
     else ret None)%M
    translated_opt.

Definition gw_move_user_org (params : MoveUserOrgInput.t) : M string :=
  try_except
    (get_directory_service ;;
     updated <- call users_update
                  [ ("userKey", JStr (MoveUserOrgInput.user_key params));
                    ("body", JObj [("orgUnitPath",
                                    JStr (MoveUserOrgInput.org_unit_path params))]) ] ;;
     email <- lift (py_get updated "primaryEmail" JNull) ;;
     ret ("✅ **" ++ py_str email ++ "** spostato in "
          ++ "**" ++ MoveUserOrgInput.org_unit_path params ++ "**"))%M
    translated.

End Server.

(** ** Reading a run *)

(** The requests executed along a trace, in order. *)
Fixpoint calls (tr : list event) : list request :=
  match tr with
  | [] => []
  | Call r :: tr' => r :: calls tr'
  | Acquire :: tr' => calls tr'
  end.

(** The credential provider hands out a client handle: the administrator
    identity is set and loading, delegating and building succeed. *)
Definition handle_acquired (w : world) : Prop :=
  truthy (JStr (ADMIN_EMAIL w)) = true
  /\ authorize w (SERVICE_ACCOUNT_FILE w) SCOPES (ADMIN_EMAIL w) = Ok tt.

Definition get_request (user_key : string) : request :=
  Request users_get [("userKey", JStr user_key)].
Definition delete_request (user_key : string) : request :=
  Request users_delete [("userKey", JStr user_key)].

Definition list_request (w : world) (p : ListUsersInput.t) : request :=
  Request users_list (list_users_kwargs w p).

Definition insert_request (p : CreateUserInput.t) (pw : string) : request :=
  Request users_insert [("body", JObj (user_body p pw))].

(** The letters, digits and symbols a temporary password may contain,
    by character code. *)
Definition allowed_char (c : ascii) : bool :=
  let n := nat_of_ascii c in
  ((65 <=? n)%nat && (n <=? 90)%nat) || ((97 <=? n)%nat && (n <=? 122)%nat)
  || ((48 <=? n)%nat && (n <=? 57)%nat)
  || existsb (Ascii.eqb c) (list_ascii_of_string "!@#$%&*").

(** The lines of a text block, and a line without its indentation. *)
Fixpoint split_lines (s : string) : list string :=
  match s with
  | EmptyString => [EmptyString]
  | String c rest =>
      match split_lines rest with
      | [] => [String c EmptyString]
      | l :: ls => if Ascii.eqb c "010"%char then EmptyString :: l :: ls
                   else String c l :: ls
      end
  end.

Fixpoint lstrip (s : string) : string :=
  match s with
  | String " "%char rest => lstrip rest
  | _ => s
  end.

(** [u] is a record whose suspended flag counts as set. *)
Definition is_suspended (u : json) : bool :=
  match u with
  | JObj d => truthy (dict_get d "suspended" JNull)
  | _ => false
  end.

Definition is_record (u : json) : Prop := exists d, u = JObj d.

(** ** Sample worlds *)

(** A runtime in which no error body parses and nothing needs [repr]. *)
Definition no_json (_ : string) : result json :=
  Raise (PyExn JSONDecodeError "Expecting value: line 1 column 1 (char 0)").

Definition bad_start_byte : string :=
  "'utf-8' codec can't decode byte 0xff in position 0: invalid start byte".

(** A deployment whose administrator identity was never set. *)
Definition unconfigured : world :=
  World "credentials.json" EmptyString "my_customer"
        no_json (fun _ => EmptyString) (fun _ => bad_start_byte)
        (fun _ _ _ => Raise (PyExn FileNotFoundError "credentials.json"))
        (fun _ _ => Ok (JObj []))
        (fun k => k).

(** A working deployment in front of a directory that answers [answer]. *)
Definition deployment (answer : request -> result json) : world :=
  World "credentials.json" "admin@x.com" "my_customer"
        no_json (fun _ => EmptyString) (fun _ => bad_start_byte)
        (fun _ _ _ => Ok tt)
        (fun _ r => answer r)
        (fun k => 7 * k + 3).

Definition user_a : json :=
  JObj [ ("primaryEmail", JStr "a@x.com");
         ("name", JObj [("fullName", JStr "A B")]);
         ("id", JStr "1");
         ("suspended", JBool false) ].

Definition user_b_fields : list (string * json) :=
  [ ("primaryEmail", JStr "b@x.com");
    ("name", JObj [("fullName", JStr "B C")]);
    ("id", JStr "2");
    ("suspended", JBool true) ].

Definition user_b_suspended : json := JObj user_b_fields.

(** The text block of [user_a]. *)
Definition user_a_block : string :=
  ("📧 **a@x.com**" ++ nl
   ++ "   Nome: A B" ++ nl
   ++ "   ID: 1" ++ nl
   ++ "   Stato: 🟢 Attivo" ++ nl
   ++ "   Admin: No" ++ nl
   ++ "   Ultimo accesso: Mai" ++ nl
   ++ "   Creazione: N/A" ++ nl
   ++ "   Unità org.: /")%string.

(** A directory holding [user_a] and [user_b_suspended]. *)
Definition small_directory (r : request) : result json :=
  match method r with
  | users_list => Ok (JObj [("users", JArr [user_a; user_b_suspended])])
  | users_get => Ok user_a
  | users_insert => Ok user_a
  | _ => Ok (JStr EmptyString)
  end.

(** A directory behind a proxy that answers every request with status 500
    and a body that is not UTF-8. *)
Definition broken_proxy (_ : request) : result json :=
  Raise (HttpError 500 ["255"%byte] "<HttpError 500>").

(** ** More requests and sample deployments *)

Definition configuration_error_text : string :=
  "Errore configurazione: GOOGLE_ADMIN_EMAIL non configurato. "
  ++ "Impostalo con l'email dell'admin che ha la delega domain-wide.".

(** A deployment with the administrator identity set and no credential file
    at the configured path. *)
Definition no_credential_file : world :=
  World "/etc/gw/credentials.json" "admin@x.com" "my_customer"
        no_json (fun _ => EmptyString) (fun _ => bad_start_byte)
        (fun _ _ _ =>
           Raise (PyExn FileNotFoundError
                    "[Errno 2] No such file or directory: '/etc/gw/credentials.json'"))
        (fun _ _ => Ok (JObj []))
        (fun k => k).

(** Whether the [except (json.JSONDecodeError, AttributeError)] clause of
    the translator catches an exception. *)
Definition caught_by_translator (e : exn) : bool :=
  match e with
  | PyExn JSONDecodeError _ | PyExn AttributeError _ => true
  | _ => false
  end.

(** The message a parsed error body carries at [error.message], if the body
    has that shape. *)
Definition structured_message (detail : json) : option json :=
  match detail with
  | JObj d =>
      match assoc "error" d with
      | Some (JObj err) => assoc "message" err
      | _ => None
      end
  | _ => None
  end.

(** The text for a status and a message, status by status. *)
Definition rendered (status : Z) (message : string) : string :=
  if (status =? 400)%Z then "Richiesta non valida: " ++ message
  else if (status =? 403)%Z then
    "Permessi insufficienti: " ++ message
    ++ ". Verifica la delega domain-wide del Service Account."
  else if (status =? 404)%Z then "Risorsa non trovata: " ++ message
  else if (status =? 409)%Z then
    "Conflitto: " ++ message ++ " (l'utente/gruppo potrebbe già esistere)"
  else if (status =? 429)%Z then "Rate limit superato. Riprova tra qualche secondo."
  else "Errore API Google (HTTP " ++ string_of_Z status ++ "): " ++ message.

(** A runtime whose [json.loads] answers [detail] for every body. *)
Definition parsing (detail : result json) : world :=
  World "credentials.json" "admin@x.com" "my_customer"
        (fun _ => detail) (fun _ => EmptyString) (fun _ => bad_start_byte)
        (fun _ _ _ => Ok tt)
        (fun _ _ => Ok (JObj []))
        (fun k => k).

Definition not_found_detail : json :=
  JObj [("error", JObj [("code", JInt 404); ("message", JStr "Resource Not Found: userKey")])].

Definition suspend_request (p : SuspendUserInput.t) : request :=
  Request users_update
    [ ("userKey", JStr (SuspendUserInput.user_key p));
      ("body", JObj [("suspended", JBool (SuspendUserInput.suspend p))]) ].

Definition move_request (p : MoveUserOrgInput.t) : request :=
  Request users_update
    [ ("userKey", JStr (MoveUserOrgInput.user_key p));
      ("body", JObj [("orgUnitPath", JStr (MoveUserOrgInput.org_unit_path p))]) ].

(** The list call of [gw_list_groups]: scoped to one user, or to the
    customer. *)
Definition groups_request (w : world) (p : ListGroupsInput.t) : request :=
  match ListGroupsInput.user_key p with
  | Some (String c k) =>
      Request groups_list
        [ ("maxResults", opt_int (ListGroupsInput.max_results p));
          ("userKey", JStr (String c k)) ]
  | _ =>
      Request groups_list
        [ ("customer", JStr (CUSTOMER_ID w));
          ("maxResults", opt_int (ListGroupsInput.max_results p)) ]
  end.

(** A directory in which every account is suspended. *)
Definition suspended_directory (r : request) : result json :=
  match method r with
  | users_list => Ok (JObj [("users", JArr [user_b_suspended])])
  | _ => Ok user_b_suspended
  end.

(** A directory with no account, group or alias at all. *)
Definition empty_directory (_ : request) : result json := Ok (JObj []).

Definition user_c_fields : list (string * json) :=
  [ ("primaryEmail", JStr "c@x.com");
    ("name", JObj [("fullName", JStr "C D")]);
    ("id", JStr "3");
    ("isAdmin", JBool true);
    ("aliases", JArr [JStr "cd@x.com"; JStr "c.d@x.com"]);
    ("orgUnitPath", JStr "/IT") ].

Definition user_c : json := JObj user_c_fields.

(** A directory whose get call answers a record with a null name. *)
Definition nameless_directory (r : request) : result json :=
  Ok (JObj [("primaryEmail", JStr "a@x.com"); ("name", JNull)]).

(** The text shown for an object that has no [get] method. *)
Definition unexpected_attribute_error (v : json) : string :=
  "Errore imprevisto: AttributeError: '" ++ type_name v
  ++ "' object has no attribute 'get'".

Definition reset_request (p : ResetPasswordInput.t) (pw : string) : request :=
  Request users_update
    [ ("userKey", JStr (ResetPasswordInput.user_key p));
      ("body", JObj [ ("password", JStr pw);
                      ("changePasswordAtNextLogin",
                       opt_bool (ResetPasswordInput.force_change p)) ]) ].

(** A directory whose update call answers a record without an email. *)
Definition terse_directory (_ : request) : result json :=
  Ok (JObj [("id", JStr "7")]).

Definition alias_list_request (user_key : string) : request :=
  Request users_aliases_list [("userKey", JStr user_key)].
Definition alias_insert_request (user_key alias : string) : request :=
  Request users_aliases_insert
    [("userKey", JStr user_key); ("body", JObj [("alias", JStr alias)])].
Definition alias_delete_request (user_key alias : string) : request :=
  Request users_aliases_delete [("userKey", JStr user_key); ("alias", JStr alias)].

(** A directory in which user a@x.com has two aliases, one of them a record
    without the alias field. *)
Definition alias_directory (r : request) : result json :=
  match method r with
  | users_aliases_list =>
      Ok (JObj [("aliases", JArr [JObj [("alias", JStr "aa@x.com")]; JObj []])])
  | _ => Ok (JObj [])
  end.

Definition members_list_request (group_key : string) : request :=
  Request members_list [("groupKey", JStr group_key)].
Definition members_insert_request (group_key email role : string) : request :=
  Request members_insert
    [ ("groupKey", JStr group_key);
      ("body", JObj [("email", JStr email); ("role", JStr role)]) ].
Definition members_delete_request (group_key email : string) : request :=
  Request members_delete [("groupKey", JStr group_key); ("memberKey", JStr email)].

Definition member_warning : string :=
  "⚠️ Specifica member_email per aggiungere o rimuovere un membro.".

(** The line of one group in the listing. *)
Definition group_line (w : world) (g : list (string * json)) : string :=
  "- 👥 **" ++ py_str w (dict_get g "email" JNull) ++ "** — "
  ++ py_str w (dict_get g "name" (JStr "N/A"))
  ++ " (" ++ py_str w (dict_get g "directMembersCount" (JStr "?")) ++ " membri)".

(** A directory with two groups, the second one a bare record. *)
Definition group_directory (r : request) : result json :=
  match method r with
  | groups_list =>
      Ok (JObj [("groups",
                 JArr [ JObj [ ("email", JStr "it@x.com"); ("name", JStr "IT");
                               ("directMembersCount", JStr "3") ];
                        JObj [] ])])
  | _ => Ok (JObj [])
  end.

(** ** Listing organizational units *)

(** [sorted(units, key=...)] orders the units by their path.  The order of
    strings is written out; what Python does with keys that are not all
    strings (numbers, nulls, lists, mixed types) is left to the runtime. *)
Section OrgUnits.

Variable w : world.

(** [sorted] on items whose keys are not all strings: the items with their
    keys, in order. *)
Variable sorted_other_keys : list (json * json) -> result (list json).

(** The key of every item, in order: [x.get("orgUnitPath", "")]. *)
Fixpoint unit_keys (items : list json) : result (list (json * json)) :=
  match items with
  | [] => Ok []
  | x :: rest =>
      (k <- py_get x "orgUnitPath" (JStr EmptyString) ;;
       keyed <- unit_keys rest ;;
       Ok ((k, x) :: keyed))%result
  end.

Fixpoint string_keys (keyed : list (json * json)) : option (list (string * json)) :=
  match keyed with
  | [] => Some []
  | (JStr k, x) :: rest =>
      match string_keys rest with
      | Some r => Some ((k, x) :: r)
      | None => None
      end
  | _ :: _ => None
  end.

(** Stable insertion: an item goes before the first one that is not below
    it.  Strings compare by code point, which on UTF-8 is byte by byte. *)
Fixpoint insert_by_key (k : string) (x : json) (l : list (string * json))
  : list (string * json) :=
  match l with
  | [] => [(k, x)]
  | (k', x') :: rest =>
      if String.ltb k' k then (k', x') :: insert_by_key k x rest
      else (k, x) :: (k', x') :: rest
  end.

Definition sort_by_key (l : list (string * json)) : list (string * json) :=
  fold_right (fun kx sorted => insert_by_key (fst kx) (snd kx) sorted) [] l.

Definition sorted_by_path (items : list json) : result (list json) :=
  (keyed <- unit_keys items ;;
   match string_keys keyed with
   | Some l => Ok (map snd (sort_by_key l))
   | None => sorted_other_keys keyed
   end)%result.

Fixpoint unit_lines (items : list json) : result (list string) :=
  match items with
  | [] => Ok []
  | u :: rest =>
      (path <- py_get u "orgUnitPath" JNull ;;
       name <- py_get u "name" (JStr "N/A") ;;
       id <- py_get u "orgUnitId" (JStr "N/A") ;;
       lines <- unit_lines rest ;;
       Ok (("- 📁 **" ++ py_str w path ++ "** — " ++ py_str w name
            ++ " (ID: " ++ py_str w id ++ ")") :: lines))%result
  end.

Definition no_org_units : string :=
  "Nessuna unità organizzativa personalizzata (solo root /).".

Definition gw_list_org_units : M string :=
  try_except
    (get_directory_service w ;;
     result <- call w orgunits_list
                 [("customerId", JStr (CUSTOMER_ID w)); ("type", JStr "all")] ;;
     units <- lift (py_get result "organizationUnits" (JArr [])) ;;
     if negb (truthy units) then ret no_org_units
     else
       lines <- lift (items <- py_iter units ;;
                      sorted <- sorted_by_path items ;;
                      unit_lines sorted)%result ;;
       ret (String.concat nl (("## Unità Organizzative" ++ nl) :: lines)))%M
    (translated w).

End OrgUnits.

Definition orgunits_request (w : world) : request :=
  Request orgunits_list [("customerId", JStr (CUSTOMER_ID w)); ("type", JStr "all")].

(** The path a unit is ordered by, and the line it is shown as. *)
Definition path_key (u : json) : string :=
  match u with
  | JObj d =>
      match dict_get d "orgUnitPath" (JStr EmptyString) with
      | JStr s => s
      | _ => EmptyString
      end
  | _ => EmptyString
  end.

Definition unit_line (w : world) (u : json) : string :=
  match u with
  | JObj d =>
      "- 📁 **" ++ py_str w (dict_get d "orgUnitPath" JNull) ++ "** — "
      ++ py_str w (dict_get d "name" (JStr "N/A"))
      ++ " (ID: " ++ py_str w (dict_get d "orgUnitId" (JStr "N/A")) ++ ")"
  | _ => EmptyString
  end.

(** A unit is a record whose path, when it has one, is a string. *)
Definition is_unit (u : json) : Prop :=
  exists d s, u = JObj d /\ dict_get d "orgUnitPath" (JStr EmptyString) = JStr s.

(** No path is below the one before it. *)
Definition by_path (a b : json) : Prop := String.ltb (path_key b) (path_key a) = false.

(** A runtime that refuses to order keys that are not strings. *)
Definition unordered (_ : list (json * json)) : result (list json) :=
  Raise (PyExn TypeError "'<' not supported between instances of 'NoneType' and 'str'").

Definition unit_sales : json :=
  JObj [("orgUnitPath", JStr "/Vendite"); ("name", JStr "Vendite"); ("orgUnitId", JStr "id:2")].
Definition unit_it : json :=
  JObj [("orgUnitPath", JStr "/IT"); ("name", JStr "IT"); ("orgUnitId", JStr "id:1")].
Definition unit_bare : json := JObj [("name", JStr "Senza percorso")].

(** A directory with three units, out of order, one of them without path. *)
Definition unit_directory (r : request) : result json :=
  match method r with
  | orgunits_list =>
      Ok (JObj [("organizationUnits", JArr [unit_sales; unit_it; unit_bare])])
  | _ => Ok (JObj [])
  end.

(** A directory that knows no user: every request fails with status 404
    and an empty body. *)
Definition userless_directory (_ : request) : result json :=
  Raise (HttpError 404 [] "<HttpError 404 Not Found>").

(** ** Where an exception of a run comes from *)

(** An exception the handler's own Python raised: an attribute, type or
    index error on a value, or the configuration error of the guard. *)
Definition internal (e : exn) : Prop := exists cls text, e = PyExn cls text.

(** The run stopped at [final] because its last step raised [e]: the
    credential provider when asked for the handle, or the directory on the
    request just executed. *)
Definition raised_in_run (w : world) (final : state) (e : exn) : Prop :=
  (exists st,
      final = log Acquire st
      /\ authorize w (SERVICE_ACCOUNT_FILE w) SCOPES (ADMIN_EMAIL w) = Raise e)
  \/ (exists st r,
         final = log (Call r) st /\ execute w (trace st) r = Raise e).

Definition pure_internal {A} (r : result A) : Prop :=
  forall e, r = Raise e -> internal e.

Definition sourced {A} (w : world) (m : M A) : Prop :=
  forall st e st', m st = (Raise e, st') -> internal e \/ raised_in_run w st' e.

(** ** Properties *)

Local Open Scope list_scope.

(** *** Running the monad *)

Ltac run :=
  unfold try_except, bind, ret, lift, raise, call, translated, translated_opt.

Lemma calls_app (tr1 tr2 : list event) :
  calls (tr1 ++ tr2) = calls tr1 ++ calls tr2.
Proof.
  induction tr1 as [|ev tr1 IH]; simpl.
  - reflexivity.
  - destruct ev; simpl; now rewrite IH.
Qed.

Lemma calls_log_call (r : request) (st : state) :
  calls (trace (log (Call r) st)) = calls (trace st) ++ [r].
Proof. unfold log; simpl. now rewrite calls_app. Qed.

Lemma calls_log_acquire (st : state) :
  calls (trace (log Acquire st)) = calls (trace st).
Proof. unfold log; simpl. rewrite calls_app; simpl. now rewrite app_nil_r. Qed.

Lemma get_directory_service_logs (w : world) (st : state) :
  snd (get_directory_service w st) = log Acquire st.
Proof.
  unfold get_directory_service.
  now destruct (negb (truthy (JStr (ADMIN_EMAIL w)))).
Qed.

Lemma get_directory_service_acquired (w : world) (st : state) :
  handle_acquired w -> get_directory_service w st = (Ok tt, log Acquire st).
Proof.
  intros [Hadmin Hauth]. unfold get_directory_service.
  now rewrite Hadmin, Hauth.
Qed.

Lemma get_directory_service_cases (w : world) (st : state) :
  get_directory_service w st = (Ok tt, log Acquire st)
  \/ exists e, get_directory_service w st = (Raise e, log Acquire st).
Proof.
  unfold get_directory_service.
  destruct (negb (truthy (JStr (ADMIN_EMAIL w)))).
  - right; eauto.
  - destruct (authorize w (SERVICE_ACCOUNT_FILE w) SCOPES (ADMIN_EMAIL w)) as [[]|e].
    + now left.
    + right; eauto.
Qed.

(** *** Delete user *)

(** C1.  With [confirm=false], [gw_delete_user] returns the cancellation
    notice and leaves the run as it found it: it executes no request, neither
    the get nor the delete. *)
Theorem delete_unconfirmed_no_call (w : world) (p : DeleteUserInput.t) (st : state) :
  DeleteUserInput.confirm p = false ->
  fst (gw_delete_user w p st) = Ok deletion_cancelled
  /\ calls (trace (snd (gw_delete_user w p st))) = calls (trace st)
  /\ ~ In (Call (get_request (DeleteUserInput.user_key p)))
          (trace (snd (gw_delete_user w p initial)))
  /\ ~ In (Call (delete_request (DeleteUserInput.user_key p)))
          (trace (snd (gw_delete_user w p initial))).
Proof.
  intros Hconfirm. unfold gw_delete_user. rewrite Hconfirm. simpl.
  repeat split; auto.
Qed.

Lemma delete_unconfirmed_no_call_witness :
  fst (gw_delete_user (deployment small_directory)
         (DeleteUserInput.Build "a@x.com" false) initial) = Ok deletion_cancelled
  /\ calls (trace (snd (gw_delete_user (deployment small_directory)
                          (DeleteUserInput.Build "a@x.com" false) initial))) = [].
Proof.
  destruct (delete_unconfirmed_no_call (deployment small_directory)
              (DeleteUserInput.Build "a@x.com" false) initial eq_refl)
    as (Hout & Hcalls & _).
  split; [exact Hout | exact Hcalls].
Defined.

(** C10.  The cancellation comes before any credential acquisition: with
    [confirm=false] the notice is returned and nothing is logged, whatever the
    configuration; with [confirm=true] the first thing the handler does is ask
    for a client handle, and a failure to get one is what it reports. *)
Theorem delete_cancels_before_credentials (w : world) (p : DeleteUserInput.t)
    (st : state) :
  (DeleteUserInput.confirm p = false ->
   gw_delete_user w p st = (Ok deletion_cancelled, st))
  /\ (DeleteUserInput.confirm p = true ->
      (exists rest,
          trace (snd (gw_delete_user w p st)) = trace st ++ Acquire :: rest)
      /\ (forall e,
             fst (get_directory_service w st) = Raise e ->
             gw_delete_user w p st = (handle_google_error w e, log Acquire st))).
Proof.
  split; intros Hconfirm; unfold gw_delete_user; rewrite Hconfirm; simpl.
  - reflexivity.
  - split.
    + run.
      destruct (get_directory_service_cases w st) as [Hok | [e Hraise]].
      * rewrite Hok.
        destruct (execute w (trace (log Acquire st))
                    (Request users_get
                       [("userKey", JStr (DeleteUserInput.user_key p))]))
          as [user|e]; simpl.
        -- destruct user; simpl;
             try (eexists; rewrite <- app_assoc; reflexivity).
           destruct (dict_get fields "name" (JObj [])); simpl;
             try (eexists; rewrite <- app_assoc; reflexivity).
           destruct (execute w _ _); simpl;
             eexists; rewrite <- !app_assoc; reflexivity.
        -- eexists; rewrite <- app_assoc; reflexivity.
      * rewrite Hraise. simpl. eexists; reflexivity.
    + intros e He. run.
      destruct (get_directory_service_cases w st) as [Hok | [e' Hraise]].
      * rewrite Hok in He. discriminate.
      * rewrite Hraise in He |- *. simpl in He. now inversion He.
Qed.

Lemma delete_cancels_before_credentials_witness :
  gw_delete_user unconfigured (DeleteUserInput.Build "a@x.com" false) initial
  = (Ok deletion_cancelled, initial)
  /\ exists rest,
      trace (snd (gw_delete_user unconfigured
                    (DeleteUserInput.Build "a@x.com" true) initial))
      = Acquire :: rest.
Proof.
  split.
  - exact (proj1 (delete_cancels_before_credentials unconfigured
                    (DeleteUserInput.Build "a@x.com" false) initial) eq_refl).
  - exact (proj1 (proj2 (delete_cancels_before_credentials unconfigured
                           (DeleteUserInput.Build "a@x.com" true) initial) eq_refl)).
Defined.

(** With [confirm=true] in a deployment without administrator identity the
    handler executes no request at all: the get call is not issued, and the
    configuration error is what it returns. *)
Lemma delete_confirmed_unconfigured_no_get :
  DeleteUserInput.confirm (DeleteUserInput.Build "a@x.com" true) = true
  /\ calls (trace (snd (gw_delete_user unconfigured
                          (DeleteUserInput.Build "a@x.com" true) initial))) = []
  /\ calls (trace (snd (gw_delete_user unconfigured
                          (DeleteUserInput.Build "a@x.com" true) initial)))
     <> [get_request "a@x.com"; delete_request "a@x.com"]
  /\ fst (gw_delete_user unconfigured (DeleteUserInput.Build "a@x.com" true) initial)
     = Ok ("Errore configurazione: GOOGLE_ADMIN_EMAIL non configurato. "
           ++ "Impostalo con l'email dell'admin che ha la delega domain-wide.")%string.
Proof.
  repeat split; try reflexivity.
  vm_compute. discriminate.
Qed.

(** C2, amended.  With [confirm=true] and a client handle acquired, the get
    call is issued first.  If it fails, nothing else is executed, the delete
    call least of all, and the outcome is the one of the translator on that
    failure: whenever the translator renders it, the rendered string is what
    is returned.  If the get call returns a record whose name is an object,
    the delete call follows and nothing else is executed; the result is the
    confirmation, or what the translator makes of the failure of the
    delete. *)
Theorem delete_confirmed_get_then_delete (w : world) (p : DeleteUserInput.t)
    (st : state) :
  DeleteUserInput.confirm p = true ->
  handle_acquired w ->
  let k := DeleteUserInput.user_key p in
  let st1 := log (Call (get_request k)) (log Acquire st) in
  match execute w (trace (log Acquire st)) (get_request k) with
  | Raise e =>
      snd (gw_delete_user w p st) = st1
      /\ calls (trace (snd (gw_delete_user w p st)))
         = calls (trace st) ++ [get_request k]
      /\ fst (gw_delete_user w p st) = handle_google_error w e
      /\ (forall s,
             handle_google_error w e = Ok s ->
             fst (gw_delete_user w p st) = Ok s)
  | Ok user =>
      forall d n,
        user = JObj d ->
        dict_get d "name" (JObj []) = JObj n ->
        calls (trace (snd (gw_delete_user w p st)))
        = calls (trace st) ++ [get_request k; delete_request k]
        /\ trace (snd (gw_delete_user w p st))
           = trace st ++ [Acquire; Call (get_request k); Call (delete_request k)]
        /\ fst (gw_delete_user w p st)
           = match execute w (trace st1) (delete_request k) with
             | Ok _ =>
                 Ok (deleted_text (py_str w (dict_get n "fullName" (JStr "N/A")))
                                  (py_str w (dict_get d "primaryEmail" (JStr k))))
             | Raise e => handle_google_error w e
             end
  end.
Proof.
  intros Hconfirm Hacq. cbv zeta.
  unfold gw_delete_user. rewrite Hconfirm. cbv beta iota delta [negb]. run.
  rewrite (get_directory_service_acquired w st Hacq).
  unfold get_request, delete_request.
  destruct (execute w (trace (log Acquire st)) _) as [user|e].
  - intros d n -> Hname. cbv beta iota delta [py_get]. rewrite Hname.
    cbv beta iota.
    destruct (execute w _ _) as [gone|e]; cbv beta iota; unfold lift; simpl;
      rewrite !calls_app; simpl; rewrite <- !app_assoc; simpl;
      rewrite ?app_nil_r; repeat split; reflexivity.
  - unfold lift. cbn [fst snd]. split; [reflexivity|].
    split; [now rewrite calls_log_call, calls_log_acquire|].
    split; [reflexivity|]. intros s Hs. exact Hs.
Qed.

Lemma delete_confirmed_get_then_delete_witness :
  calls (trace (snd (gw_delete_user (deployment small_directory)
                       (DeleteUserInput.Build "a@x.com" true) initial)))
  = [get_request "a@x.com"; delete_request "a@x.com"]
  /\ calls (trace (snd (gw_delete_user (deployment userless_directory)
                          (DeleteUserInput.Build "a@x.com" true) initial)))
     = [get_request "a@x.com"]
  /\ fst (gw_delete_user (deployment userless_directory)
            (DeleteUserInput.Build "a@x.com" true) initial)
     = Ok "Risorsa non trovata: <HttpError 404 Not Found>"%string.
Proof.
  split; [|split].
  - exact (proj1 (delete_confirmed_get_then_delete (deployment small_directory)
                    (DeleteUserInput.Build "a@x.com" true) initial
                    eq_refl (conj eq_refl eq_refl)
                    _ _ eq_refl eq_refl)).
  - exact (proj1 (proj2 (delete_confirmed_get_then_delete
                           (deployment userless_directory)
                           (DeleteUserInput.Build "a@x.com" true) initial
                           eq_refl (conj eq_refl eq_refl)))).
  - exact (proj2 (proj2 (proj2 (delete_confirmed_get_then_delete
                                  (deployment userless_directory)
                                  (DeleteUserInput.Build "a@x.com" true) initial
                                  eq_refl (conj eq_refl eq_refl))))
             _ eq_refl).
Defined.

(** *** Manage alias *)

(** In a deployment without administrator identity, add without
    [alias_email] returns the configuration error, not the warning. *)
Lemma manage_alias_unconfigured_no_warning :
  ManageAliasInput.alias_email
    (ManageAliasInput.Build "a@x.com" AliasAction.ADD None) = None
  /\ fst (gw_manage_alias unconfigured
            (ManageAliasInput.Build "a@x.com" AliasAction.ADD None) initial)
     = Ok (Some ("Errore configurazione: GOOGLE_ADMIN_EMAIL non configurato. "
                 ++ "Impostalo con l'email dell'admin che ha la delega domain-wide.")%string)
  /\ fst (gw_manage_alias unconfigured
            (ManageAliasInput.Build "a@x.com" AliasAction.ADD None) initial)
     <> Ok (Some alias_warning).
Proof.
  repeat split. vm_compute. discriminate.
Qed.

(** C4, amended.  With action add or remove and [alias_email] omitted the
    handler executes no request: it only asks for a client handle.  When the
    handle is acquired the result is the validation warning; when it is not,
    the result is the translated failure of the acquisition. *)
Theorem manage_alias_missing_email (w : world) (p : ManageAliasInput.t) (st : state) :
  ManageAliasInput.action p <> AliasAction.LIST ->
  ManageAliasInput.alias_email p = None ->
  snd (gw_manage_alias w p st) = log Acquire st
  /\ calls (trace (snd (gw_manage_alias w p st))) = calls (trace st)
  /\ (handle_acquired w -> fst (gw_manage_alias w p st) = Ok (Some alias_warning))
  /\ (forall e,
         fst (get_directory_service w st) = Raise e ->
         fst (gw_manage_alias w p st)
         = rbind (handle_google_error w e) (fun s => Ok (Some s))).
Proof.
  intros Haction Hemail.
  assert (Hlist : AliasAction.eqb (ManageAliasInput.action p) AliasAction.LIST = false)
    by (destruct (ManageAliasInput.action p); simpl; congruence).
  assert (Hrun : forall r,
             get_directory_service w st = (r, log Acquire st) ->
             gw_manage_alias w p st
             = match r with
               | Ok _ => (Ok (Some alias_warning), log Acquire st)
               | Raise e =>
                   (rbind (handle_google_error w e) (fun s => Ok (Some s)),
                    log Acquire st)
               end).
  { intros r Hr. unfold gw_manage_alias. run. rewrite Hr, Hlist, Hemail.
    destruct r as [[]|e]; reflexivity. }
  destruct (get_directory_service_cases w st) as [Hok | [e Hraise]].
  - rewrite (Hrun _ Hok). repeat split.
    + cbn [snd]. apply calls_log_acquire.
    + intros e He. rewrite Hok in He. discriminate.
  - rewrite (Hrun _ Hraise). repeat split.
    + cbn [snd]. apply calls_log_acquire.
    + intros Hacq. rewrite (get_directory_service_acquired w st Hacq) in Hraise.
      discriminate.
    + intros e' He'. rewrite Hraise in He'. cbn [fst] in He'.
      now inversion He'.
Qed.

Lemma manage_alias_missing_email_witness :
  fst (gw_manage_alias (deployment small_directory)
         (ManageAliasInput.Build "a@x.com" AliasAction.REMOVE None) initial)
  = Ok (Some alias_warning)
  /\ calls (trace (snd (gw_manage_alias (deployment small_directory)
                          (ManageAliasInput.Build "a@x.com" AliasAction.REMOVE None)
                          initial))) = [].
Proof.
  destruct (manage_alias_missing_email (deployment small_directory)
              (ManageAliasInput.Build "a@x.com" AliasAction.REMOVE None) initial
              ltac:(discriminate) eq_refl)
    as (_ & Hcalls & Hwarn & _).
  split; [exact (Hwarn (conj eq_refl eq_refl)) | exact Hcalls].
Defined.

(** *** List users *)

(** What the comprehension keeps: records only, none of them suspended, and
    all of them taken from the items it was given. *)
Lemma not_suspended_sound (items shown : list json) :
  not_suspended items = Ok shown ->
  Forall (fun u => is_record u /\ is_suspended u = false /\ In u items) shown.
Proof.
  revert shown. induction items as [|u rest IH]; simpl; intros shown H.
  - inversion H. constructor.
  - destruct u; simpl in H; try discriminate.
    destruct (not_suspended rest) as [kept|e]; simpl in H; [|discriminate].
    specialize (IH kept eq_refl).
    assert (Hrest : Forall (fun u => is_record u /\ is_suspended u = false
                                     /\ In u (JObj fields :: rest)) kept).
    { eapply Forall_impl; [|exact IH]. simpl. intros a (Ha & Hb & Hc). auto. }
    destruct (truthy (dict_get fields "suspended" JNull)) eqn:Hflag;
      simpl in H; inversion H; subst; auto.
    constructor; auto.
    repeat split; [now exists fields | exact Hflag | now left].
Qed.

(** On records the comprehension is the filter. *)
Lemma not_suspended_filter (items : list json) :
  Forall is_record items ->
  not_suspended items = Ok (filter (fun u => negb (is_suspended u)) items).
Proof.
  induction 1 as [|u rest [d ->] _ IH]; simpl.
  - reflexivity.
  - rewrite IH. simpl. now destruct (truthy (dict_get d "suspended" JNull)).
Qed.

(** C3.  With [show_suspended=false], whatever the list call returned, the
    records [gw_list_users] formats are the ones the comprehension kept:
    records of the response, none with a set suspended flag (in particular
    none whose flag is [true]); the output is the listing of exactly those,
    the no-result message when none is left, or a translated error. *)
Theorem list_users_hides_suspended (w : world) (p : ListUsersInput.t) (st : state)
    (resp : json) :
  ListUsersInput.show_suspended p = Some false ->
  handle_acquired w ->
  execute w (trace (log Acquire st)) (list_request w p) = Ok resp ->
  match rbind (py_get resp "users" (JArr []))
              (fun users => rbind (py_iter users) not_suspended) with
  | Raise e => fst (gw_list_users w p st) = handle_google_error w e
  | Ok shown =>
      Forall (fun u => is_record u /\ is_suspended u = false) shown
      /\ (forall d, dict_get d "suspended" JNull = JBool true -> ~ In (JObj d) shown)
      /\ (forall items,
             py_get resp "users" (JArr []) = Ok (JArr items) ->
             Forall is_record items ->
             shown = filter (fun u => negb (is_suspended u)) items)
      /\ fst (gw_list_users w p st)
         = match shown with
           | [] => Ok no_users
           | _ :: _ =>
               match format_users w shown with
               | Ok blocks => Ok (users_listing (List.length shown) blocks)
               | Raise e => handle_google_error w e
               end
           end
  end.
Proof.
  intros Hflag Hacq Hexec.
  unfold gw_list_users. run.
  rewrite (get_directory_service_acquired w st Hacq).
  unfold list_request in Hexec. rewrite Hexec, Hflag.
  cbv beta iota delta [opt_bool truthy negb].
  destruct (py_get resp "users" (JArr [])) as [users|e]; [|reflexivity].
  cbv beta iota delta [rbind].
  destruct (py_iter users) as [items|e] eqn:Hiter; [|reflexivity].
  destruct (not_suspended items) as [shown|e] eqn:Hkept; [|reflexivity].
  pose proof (not_suspended_sound _ _ Hkept) as Hsound.
  split; [|split; [|split]].
  - eapply Forall_impl; [|exact Hsound]. simpl. tauto.
  - intros d Hd Hin.
    rewrite Forall_forall in Hsound. destruct (Hsound _ Hin) as (_ & Hs & _).
    simpl in Hs. rewrite Hd in Hs. discriminate.
  - intros items' Husers Hrec. inversion Husers; subst users.
    simpl in Hiter. inversion Hiter; subst items'.
    rewrite (not_suspended_filter _ Hrec) in Hkept. inversion Hkept. reflexivity.
  - destruct shown as [|u shown']; [reflexivity|].
    cbv beta iota delta [py_len py_iter].
    destruct (format_users w (u :: shown')); reflexivity.
Qed.

Lemma list_users_hides_suspended_witness :
  fst (gw_list_users (deployment small_directory)
         (ListUsersInput.Build None (Some 100%Z) (Some "email"%string) (Some false))
         initial)
  = match format_users (deployment small_directory) [user_a] with
    | Ok blocks => Ok (users_listing 1 blocks)
    | Raise e => handle_google_error (deployment small_directory) e
    end
  /\ ~ In user_b_suspended [user_a].
Proof.
  pose proof (list_users_hides_suspended (deployment small_directory)
                (ListUsersInput.Build None (Some 100%Z) (Some "email"%string) (Some false))
                initial _ eq_refl (conj eq_refl eq_refl) eq_refl) as H.
  destruct H as (_ & Hnot & _ & Hout).
  split; [exact Hout | exact (Hnot user_b_fields eq_refl)].
Defined.

(** *** Error translator *)

(** What the translator renders once the message has been extracted. *)
Lemma handle_google_error_status (w : world) (status : Z) (content : list byte)
    (text : string) (m : json) :
  error_message w content text = Ok m ->
  (status = 403%Z ->
   handle_google_error w (HttpError status content text)
   = Ok ("Permessi insufficienti: " ++ py_str w m
         ++ ". Verifica la delega domain-wide del Service Account.")%string)
  /\ (status = 429%Z ->
      handle_google_error w (HttpError status content text)
      = Ok "Rate limit superato. Riprova tra qualche secondo."%string)
  /\ (~ In status [400; 403; 404; 409; 429]%Z ->
      handle_google_error w (HttpError status content text)
      = Ok ("Errore API Google (HTTP " ++ string_of_Z status ++ "): "
            ++ py_str w m)%string).
Proof.
  intros Hm. unfold handle_google_error. rewrite Hm.
  cbv beta iota delta [rbind]. repeat split.
  - intros ->. reflexivity.
  - intros ->. reflexivity.
  - intros Hout. unfold error_map, map_get.
    repeat match goal with
           | |- context [(status =? ?k)%Z] =>
               destruct (Z.eqb_spec status k);
               [exfalso; apply Hout; subst; simpl; tauto|]
           end.
    reflexivity.
Qed.

(** A body that decodes but is not JSON falls back to [str(e)]. *)
Lemma error_message_fallback (w : world) (content : list byte) (text reason : string) :
  utf8_ok content = true ->
  json_loads w (string_of_list_byte content) = Raise (PyExn JSONDecodeError reason) ->
  error_message w content text = Ok (JStr text).
Proof.
  intros Hok Hjson. unfold error_message, bytes_decode.
  rewrite Hok. cbv beta iota delta [rbind]. now rewrite Hjson.
Qed.

(** Exceptions other than transport errors are always rendered. *)
Lemma handle_google_error_other (w : world) (cls : exn_class) (text : string) :
  exists s, handle_google_error w (PyExn cls text) = Ok s.
Proof.
  unfold handle_google_error.
  destruct (isinstance_FileNotFoundError cls); [eauto|].
  destruct (isinstance_ValueError cls); eauto.
Qed.

(** C5.  A transport error whose body is the single byte 0xff is not
    rendered at all: decoding the body raises [UnicodeDecodeError], which the
    translator does not catch, whether the status is 403, 429 or unmapped. *)
Theorem translator_raises_on_undecodable_body (w : world) (text : string) :
  handle_google_error w (HttpError 403 ["255"%byte] text)
  = Raise (PyExn UnicodeDecodeError (decode_error_text w ["255"%byte]))
  /\ handle_google_error w (HttpError 429 ["255"%byte] text)
     = Raise (PyExn UnicodeDecodeError (decode_error_text w ["255"%byte]))
  /\ handle_google_error w (HttpError 500 ["255"%byte] text)
     = Raise (PyExn UnicodeDecodeError (decode_error_text w ["255"%byte])).
Proof. repeat split. Qed.

(** *** Every handler ends in the translator *)

(** A handler returns what its body returns, or what the translator makes of
    the exception the body raised. *)
Lemma try_except_translated (w : world) (body : M string) (st : state) :
  try_except body (translated w) st
  = match body st with
    | (Ok s, st') => (Ok s, st')
    | (Raise e, st') => (handle_google_error w e, st')
    end.
Proof. unfold try_except, translated, lift. now destruct (body st) as [[s|e] st']. Qed.

(** [gw_manage_alias] never falls off the end of the function. *)
Lemma gw_manage_alias_returns_text (w : world) (p : ManageAliasInput.t) (st : state) :
  fst (gw_manage_alias w p st) <> Ok None.
Proof.
  unfold gw_manage_alias. run.
  destruct (get_directory_service w st) as [[[]|e] st0]; simpl.
  - destruct (ManageAliasInput.action p); simpl.
    + destruct (ManageAliasInput.alias_email p) as [a|]; simpl; [|discriminate].
      destruct (negb (String.eqb a EmptyString)); simpl; [|discriminate].
      destruct (execute w _ _); simpl; [discriminate|].
      destruct (handle_google_error w e); simpl; discriminate.
    + destruct (ManageAliasInput.alias_email p) as [a|]; simpl; [|discriminate].
      destruct (negb (String.eqb a EmptyString)); simpl; [|discriminate].
      destruct (execute w _ _); simpl; [discriminate|].
      destruct (handle_google_error w e); simpl; discriminate.
    + destruct (execute w _ _) as [result|e]; simpl.
      * destruct (py_get result "aliases" (JArr [])) as [aliases|e]; simpl.
        -- destruct (truthy aliases); simpl; [|discriminate].
           destruct (rbind (py_iter aliases) (alias_lines w)) as [lines|e]; simpl;
             [discriminate|].
           destruct (handle_google_error w e); simpl; discriminate.
        -- destruct (handle_google_error w e); simpl; discriminate.
      * destruct (handle_google_error w e); simpl; discriminate.
  - destruct (handle_google_error w e); simpl; discriminate.
Qed.

(** C9.  Behind a proxy that answers with status 500 and a body that is not
    UTF-8, the translator raises instead of returning a string, and the
    handlers that called it let that exception out. *)
Theorem handler_lets_translator_failure_out :
  handle_google_error (deployment broken_proxy)
    (HttpError 500 ["255"%byte] "<HttpError 500>")
  = Raise (PyExn UnicodeDecodeError bad_start_byte)
  /\ fst (gw_manage_alias (deployment broken_proxy)
            (ManageAliasInput.Build "a@x.com" AliasAction.LIST None) initial)
     = Raise (PyExn UnicodeDecodeError bad_start_byte)
  /\ fst (gw_get_user (deployment broken_proxy) (GetUserInput.Build "a@x.com") initial)
     = Raise (PyExn UnicodeDecodeError bad_start_byte).
Proof. repeat split. Qed.

(** *** Get user *)

(** C7.  Against a provider that answers the get call for a@x.com with the
    record of the scenario, [gw_get_user] returns the block of that record;
    its lines, indentation aside, include the three lines of the scenario. *)
Theorem get_user_scenario (w : world) (st : state) :
  handle_acquired w ->
  execute w (trace (log Acquire st)) (get_request "a@x.com") = Ok user_a ->
  fst (gw_get_user w (GetUserInput.Build "a@x.com") st) = Ok user_a_block
  /\ In "📧 **a@x.com**"%string (split_lines user_a_block)
  /\ In "Stato: 🟢 Attivo"%string (map lstrip (split_lines user_a_block))
  /\ In "ID: 1"%string (map lstrip (split_lines user_a_block)).
Proof.
  intros Hacq Hexec. split.
  - unfold gw_get_user. run.
    rewrite (get_directory_service_acquired w st Hacq).
    unfold get_request in Hexec. cbn [GetUserInput.user_key]. rewrite Hexec.
    reflexivity.
  - vm_compute. tauto.
Qed.

Lemma get_user_scenario_witness :
  fst (gw_get_user (deployment small_directory) (GetUserInput.Build "a@x.com") initial)
  = Ok user_a_block.
Proof.
  exact (proj1 (get_user_scenario (deployment small_directory) initial
                  (conj eq_refl eq_refl) eq_refl)).
Defined.

(** *** Temporary passwords *)

Lemma chars_allowed : forallb allowed_char (list_ascii_of_string chars) = true.
Proof. vm_compute. reflexivity. Qed.

Lemma string_get_in (s : string) (i : nat) (c : ascii) :
  String.get i s = Some c -> In c (list_ascii_of_string s).
Proof.
  revert i. induction s as [|c0 s IH]; simpl; intros i H.
  - discriminate.
  - destruct i as [|i].
    + inversion H. now left.
    + right. eauto.
Qed.

Section Choices.

Variable w : world.
Variable seq : string.
Hypothesis seq_nonempty : seq <> EmptyString.
Hypothesis seq_allowed : forallb allowed_char (list_ascii_of_string seq) = true.

Lemma secrets_choice_allowed (st : state) :
  exists c,
    secrets_choice w seq st = (Ok c, State (trace st) (S (draws st)))
    /\ allowed_char c = true.
Proof.
  unfold secrets_choice.
  destruct seq as [|c0 rest] eqn:Hseq; [congruence|].
  rewrite forallb_forall in seq_allowed.
  eexists; split; [reflexivity|].
  apply seq_allowed.
  destruct (String.get _ _) as [c|] eqn:Hget.
  - eapply string_get_in; eauto.
  - simpl. now left.
Qed.

Lemma choices_allowed (n : nat) (st : state) :
  exists pw,
    choices w seq n st = (Ok pw, State (trace st) (n + draws st))
    /\ String.length pw = n
    /\ Forall (fun c => allowed_char c = true) (list_ascii_of_string pw).
Proof.
  revert st. induction n as [|n IH]; intros st; simpl.
  - exists EmptyString. destruct st; repeat split; constructor.
  - unfold bind.
    destruct (secrets_choice_allowed st) as (c & -> & Hc).
    destruct (IH (State (trace st) (S (draws st)))) as (pw & -> & Hlen & Hall).
    exists (String c pw). unfold ret. simpl. repeat split.
    + now rewrite Nat.add_succ_r.
    + now rewrite Hlen.
    + now constructor.
Qed.

End Choices.

Lemma chars_nonempty : chars <> EmptyString.
Proof. discriminate. Qed.

Lemma user_body_password (p : CreateUserInput.t) (pw : string) :
  assoc "password" (user_body p pw) = Some (JStr pw).
Proof.
  unfold user_body.
  destruct (truthy (opt_str (CreateUserInput.recovery_email p)));
    destruct (truthy (opt_str (CreateUserInput.recovery_phone p))); reflexivity.
Qed.

(** What a run of [gw_create_user] comes to once the handle is acquired and
    the password is settled. *)
Lemma gw_create_user_acquired (w : world) (p : CreateUserInput.t) (st st1 : state)
    (pw : string) :
  handle_acquired w ->
  password_or_generated w (CreateUserInput.password p) (log Acquire st) = (Ok pw, st1) ->
  gw_create_user w p st
  = (match execute w (trace st1) (insert_request p pw) with
     | Ok created =>
         match format_user w created with
         | Ok block =>
             Ok (created_text block pw
                   (truthy (opt_bool (CreateUserInput.change_password_at_next_login p))))
         | Raise e => handle_google_error w e
         end
     | Raise e => handle_google_error w e
     end,
     log (Call (insert_request p pw)) st1).
Proof.
  intros Hacq Hpw. unfold gw_create_user. run.
  rewrite (get_directory_service_acquired w st Hacq), Hpw.
  unfold insert_request.
  destruct (execute w (trace st1) _) as [created|e]; [|reflexivity].
  destruct (format_user w created); reflexivity.
Qed.

(** A negative length yields the empty string: [range] is then empty. *)
Lemma generate_temp_password_negative (w : world) (n : Z) (st : state) :
  (n < 0)%Z -> generate_temp_password w n st = (Ok EmptyString, st).
Proof.
  intros Hn. unfold generate_temp_password.
  destruct n; try lia. reflexivity.
Qed.

(** C6.  For a length that is not negative the generator returns a string
    of that many characters, each a letter, a digit or one of the seven
    symbols, and executes nothing; the default length is 16; and create-user
    without a password sends, and on success shows, a password generated
    with the default length. *)
Theorem temp_password_shape (w : world) :
  (forall (n : Z) (st : state),
      (0 <= n)%Z ->
      exists pw st',
        generate_temp_password w n st = (Ok pw, st')
        /\ Z.of_nat (String.length pw) = n
        /\ Forall (fun c => allowed_char c = true) (list_ascii_of_string pw)
        /\ trace st' = trace st)
  /\ default_length = 16%Z
  /\ (forall (p : CreateUserInput.t) (st : state),
         CreateUserInput.password p = None ->
         handle_acquired w ->
         exists pw st1,
           generate_temp_password w default_length (log Acquire st) = (Ok pw, st1)
           /\ String.length pw = 16
           /\ Forall (fun c => allowed_char c = true) (list_ascii_of_string pw)
           /\ calls (trace (snd (gw_create_user w p st)))
              = calls (trace st) ++ [insert_request p pw]
           /\ assoc "password" (user_body p pw) = Some (JStr pw)
           /\ (forall created block,
                  execute w (trace st1) (insert_request p pw) = Ok created ->
                  format_user w created = Ok block ->
                  fst (gw_create_user w p st)
                  = Ok (created_text block pw
                          (truthy (opt_bool
                                     (CreateUserInput.change_password_at_next_login p)))))).
Proof.
  split; [|split].
  - intros n st Hn. unfold generate_temp_password.
    destruct (choices_allowed w chars chars_nonempty chars_allowed (Z.to_nat n) st)
      as (pw & Hrun & Hlen & Hall).
    exists pw, (State (trace st) (Z.to_nat n + draws st)).
    repeat split; auto.
    rewrite Hlen. lia.
  - reflexivity.
  - intros p st Hnone Hacq. unfold generate_temp_password.
    destruct (choices_allowed w chars chars_nonempty chars_allowed
                (Z.to_nat default_length) (log Acquire st))
      as (pw & Hrun & Hlen & Hall).
    exists pw, (State (trace (log Acquire st))
                      (Z.to_nat default_length + draws (log Acquire st))).
    assert (Hpw : password_or_generated w (CreateUserInput.password p) (log Acquire st)
                  = (Ok pw, State (trace (log Acquire st))
                                  (Z.to_nat default_length + draws (log Acquire st)))).
    { rewrite Hnone. exact Hrun. }
    rewrite (gw_create_user_acquired w p st _ pw Hacq Hpw).
    split; [exact Hrun|]. split; [exact Hlen|]. split; [exact Hall|].
    split; [|split].
    + cbn [snd]. rewrite calls_log_call. cbn [trace].
      now rewrite calls_log_acquire.
    + apply user_body_password.
    + intros created block Hexec Hfmt. cbn [fst]. now rewrite Hexec, Hfmt.
Qed.

Lemma temp_password_shape_witness :
  exists pw st',
    generate_temp_password (deployment small_directory) 16 initial = (Ok pw, st')
    /\ Z.of_nat (String.length pw) = 16%Z
    /\ Forall (fun c => allowed_char c = true) (list_ascii_of_string pw)
    /\ trace st' = trace initial.
Proof.
  exact (proj1 (temp_password_shape (deployment small_directory)) 16%Z initial
           ltac:(discriminate)).
Defined.

(** *** Create user *)

Lemma append_assoc (a b c : string) : ((a ++ b) ++ c = a ++ (b ++ c))%string.
Proof. induction a as [|x a IH]; simpl; [reflexivity | now rewrite IH]. Qed.

(** C8.  A successful [gw_create_user] returns the text before the warning
    line followed by the text after it when
    [change_password_at_next_login] is [false], and the same two texts with
    the must-change-password warning between them when it is [true]. *)
Theorem create_user_warning_line (w : world) (p : CreateUserInput.t) (st st1 : state)
    (flag : bool) (pw : string) (created : json) (block : string) :
  CreateUserInput.change_password_at_next_login p = Some flag ->
  handle_acquired w ->
  password_or_generated w (CreateUserInput.password p) (log Acquire st) = (Ok pw, st1) ->
  execute w (trace st1) (insert_request p pw) = Ok created ->
  format_user w created = Ok block ->
  let before :=
    ("✅ Utente creato con successo!" ++ nl ++ nl ++ block ++ nl ++ nl
     ++ "🔑 **Password temporanea**: `" ++ pw ++ "`" ++ nl)%string in
  let after :=
    (nl ++ nl ++ "Comunica le credenziali al cliente in modo sicuro.")%string in
  fst (gw_create_user w p st)
  = Ok (if flag
        then (before ++ "⚠️ L'utente dovrà cambiarla al primo accesso." ++ after)%string
        else (before ++ after)%string).
Proof.
  intros Hflag Hacq Hpw Hexec Hfmt before after.
  rewrite (gw_create_user_acquired w p st st1 pw Hacq Hpw).
  cbn [fst]. rewrite Hexec, Hfmt, Hflag. f_equal.
  unfold created_text, before, after, change_warning.
  destruct flag; cbn [opt_bool truthy]; repeat rewrite append_assoc; reflexivity.
Qed.

Lemma create_user_warning_line_witness :
  exists before after,
    fst (gw_create_user (deployment small_directory)
           (CreateUserInput.Build "a@x.com" "A" "B" (Some "S3cret!pw"%string)
              (Some "/"%string) (Some false) None None) initial)
    = Ok (before ++ after)%string
    /\ fst (gw_create_user (deployment small_directory)
              (CreateUserInput.Build "a@x.com" "A" "B" (Some "S3cret!pw"%string)
                 (Some "/"%string) (Some true) None None) initial)
       = Ok (before ++ change_warning ++ after)%string.
Proof.
  eexists. eexists. split.
  - exact (create_user_warning_line (deployment small_directory)
             (CreateUserInput.Build "a@x.com" "A" "B" (Some "S3cret!pw"%string)
                (Some "/"%string) (Some false) None None)
             initial _ false _ _ _
             eq_refl (conj eq_refl eq_refl) eq_refl eq_refl eq_refl).
  - exact (create_user_warning_line (deployment small_directory)
             (CreateUserInput.Build "a@x.com" "A" "B" (Some "S3cret!pw"%string)
                (Some "/"%string) (Some true) None None)
             initial _ true _ _ _
             eq_refl (conj eq_refl eq_refl) eq_refl eq_refl eq_refl).
Defined.

(** ** Further properties of the handlers *)

(** *** Handlers without a client handle *)

Lemma get_directory_service_raise (w : world) (st : state) (e : exn) :
  fst (get_directory_service w st) = Raise e ->
  get_directory_service w st = (Raise e, log Acquire st).
Proof.
  intros He. destruct (get_directory_service_cases w st) as [Hok | [e' Hraise]].
  - rewrite Hok in He. discriminate.
  - rewrite Hraise in He |- *. cbn [fst] in He. now inversion He.
Qed.

(** When the credential provider raises, every handler that asks for a
    handle stops there and hands the exception to the translator. *)
Lemma without_handle (w : world) (st : state) (e : exn) :
  fst (get_directory_service w st) = Raise e ->
  let told := (handle_google_error w e, log Acquire st) in
  let told_opt :=
    (rbind (handle_google_error w e) (fun s => Ok (Some s)), log Acquire st) in
  (forall p, gw_list_users w p st = told)
  /\ (forall p, gw_get_user w p st = told)
  /\ (forall p, gw_create_user w p st = told)
  /\ (forall p, DeleteUserInput.confirm p = true -> gw_delete_user w p st = told)
  /\ (forall p, gw_suspend_user w p st = told)
  /\ (forall p, gw_reset_password w p st = told)
  /\ (forall p, gw_manage_alias w p st = told_opt)
  /\ (forall p, gw_list_groups w p st = told)
  /\ (forall p, gw_manage_group_member w p st = told_opt)
  /\ (forall p, gw_move_user_org w p st = told).
Proof.
  intros He told told_opt. apply get_directory_service_raise in He.
  repeat split; intros p;
    try (intros Hconfirm; unfold gw_delete_user; rewrite Hconfirm;
         cbv beta iota delta [negb]);
    unfold gw_list_users, gw_get_user, gw_create_user, gw_suspend_user,
      gw_reset_password, gw_manage_alias, gw_list_groups, gw_manage_group_member,
      gw_move_user_org;
    run; rewrite He; reflexivity.
Qed.

(** X1.  With no administrator identity configured, every tool that reaches
    the credential provider returns the configuration error and executes no
    request; the credential file is not even looked at. *)
Theorem handlers_report_missing_admin_email (w : world) (st : state) :
  ADMIN_EMAIL w = EmptyString ->
  let told := (Ok configuration_error_text, log Acquire st) in
  let told_opt := (Ok (Some configuration_error_text), log Acquire st) in
  (forall p, gw_list_users w p st = told)
  /\ (forall p, gw_get_user w p st = told)
  /\ (forall p, gw_create_user w p st = told)
  /\ (forall p, DeleteUserInput.confirm p = true -> gw_delete_user w p st = told)
  /\ (forall p, gw_suspend_user w p st = told)
  /\ (forall p, gw_reset_password w p st = told)
  /\ (forall p, gw_manage_alias w p st = told_opt)
  /\ (forall p, gw_list_groups w p st = told)
  /\ (forall p, gw_manage_group_member w p st = told_opt)
  /\ (forall p, gw_move_user_org w p st = told).
Proof.
  intros Hadmin.
  apply (without_handle w st
           (PyExn ValueError
              ("GOOGLE_ADMIN_EMAIL non configurato. "
               ++ "Impostalo con l'email dell'admin che ha la delega domain-wide.")%string)).
  unfold get_directory_service. rewrite Hadmin. reflexivity.
Qed.

Lemma handlers_report_missing_admin_email_witness :
  gw_move_user_org unconfigured (MoveUserOrgInput.Build "a@x.com" "/IT") initial
  = (Ok configuration_error_text, State [Acquire] 0).
Proof.
  pose proof (handlers_report_missing_admin_email unconfigured initial eq_refl) as H.
  exact (proj2 (proj2 (proj2 (proj2 (proj2 (proj2 (proj2 (proj2 (proj2 H))))))))
           (MoveUserOrgInput.Build "a@x.com" "/IT")).
Defined.

(** X2.  With the administrator identity set and the credential file
    missing, every tool returns the same message, which names the configured
    path and not the text of the exception, and executes no request. *)
Theorem handlers_report_missing_credential_file (w : world) (st : state)
    (text : string) :
  truthy (JStr (ADMIN_EMAIL w)) = true ->
  authorize w (SERVICE_ACCOUNT_FILE w) SCOPES (ADMIN_EMAIL w)
  = Raise (PyExn FileNotFoundError text) ->
  let message :=
    ("File credenziali non trovato: " ++ SERVICE_ACCOUNT_FILE w
     ++ ". Verifica il path.")%string in
  let told := (Ok message, log Acquire st) in
  let told_opt := (Ok (Some message), log Acquire st) in
  (forall p, gw_list_users w p st = told)
  /\ (forall p, gw_get_user w p st = told)
  /\ (forall p, gw_create_user w p st = told)
  /\ (forall p, DeleteUserInput.confirm p = true -> gw_delete_user w p st = told)
  /\ (forall p, gw_suspend_user w p st = told)
  /\ (forall p, gw_reset_password w p st = told)
  /\ (forall p, gw_manage_alias w p st = told_opt)
  /\ (forall p, gw_list_groups w p st = told)
  /\ (forall p, gw_manage_group_member w p st = told_opt)
  /\ (forall p, gw_move_user_org w p st = told).
Proof.
  intros Hadmin Hauth.
  apply (without_handle w st (PyExn FileNotFoundError text)).
  unfold get_directory_service. rewrite Hadmin, Hauth. reflexivity.
Qed.

Lemma handlers_report_missing_credential_file_witness :
  gw_get_user no_credential_file (GetUserInput.Build "a@x.com") initial
  = (Ok "File credenziali non trovato: /etc/gw/credentials.json. Verifica il path."%string,
     State [Acquire] 0).
Proof.
  pose proof (handlers_report_missing_credential_file no_credential_file initial _
                eq_refl eq_refl) as H.
  exact (proj1 (proj2 H) (GetUserInput.Build "a@x.com")).
Defined.

(** *** The translator, case by case *)

(** The only way out of the translator with an exception. *)
Lemma handle_google_error_raises (w : world) (e e' : exn) :
  handle_google_error w e = Raise e' ->
  exists status content text,
    e = HttpError status content text
    /\ ((utf8_ok content = false
         /\ e' = PyExn UnicodeDecodeError (decode_error_text w content))
        \/ (utf8_ok content = true
            /\ json_loads w (string_of_list_byte content) = Raise e'
            /\ caught_by_translator e' = false)).
Proof.
  destruct e as [status content text | cls text]; simpl.
  - intros H. exists status, content, text. split; [reflexivity|].
    unfold error_message, bytes_decode in H.
    destruct (utf8_ok content); cbv beta iota delta [rbind] in H.
    + right. split; [reflexivity|].
      destruct (json_loads w (string_of_list_byte content)) as [detail|e0].
      * exfalso.
        destruct detail; cbv beta iota delta [py_get rbind no_attribute_get] in H;
          try discriminate.
        destruct (dict_get fields "error" (JObj [])); discriminate.
      * destruct e0 as [s c t | [] t]; simpl in H; try discriminate;
          inversion H; subst; auto.
    + left. split; [reflexivity|]. now inversion H.
  - destruct (isinstance_FileNotFoundError cls); [discriminate|].
    destruct (isinstance_ValueError cls); discriminate.
Qed.

(** X3.  On the exceptions of [exn], that is every exception that is not
    a transport error and every transport error that carries a response
    with a status and a body of bytes, as those raised by [execute()] do,
    the translator raises in exactly two situations, both on a transport
    error: the body is not UTF-8 (it raises the decode error), or the body
    decodes and [json.loads] raises something other than a JSON-decode or
    attribute error (it raises that).  On every other such exception it
    returns a string.  A transport error built without a response is not an
    [exn] and is not covered. *)
Theorem translator_failure_characterised (w : world) (e e' : exn) :
  handle_google_error w e = Raise e' <->
  exists status content text,
    e = HttpError status content text
    /\ ((utf8_ok content = false
         /\ e' = PyExn UnicodeDecodeError (decode_error_text w content))
        \/ (utf8_ok content = true
            /\ json_loads w (string_of_list_byte content) = Raise e'
            /\ caught_by_translator e' = false)).
Proof.
  split; [apply handle_google_error_raises|].
  intros (status & content & text & -> & [[Hbad ->] | (Hok & Hjson & Hesc)]);
    unfold handle_google_error, error_message, bytes_decode.
  - now rewrite Hbad.
  - rewrite Hok. cbv beta iota delta [rbind]. rewrite Hjson.
    destruct e' as [s c t | [] t]; simpl in Hesc; try discriminate; reflexivity.
Qed.

(** X4.  When the body of a transport error decodes and parses, the
    message shown is the one at [error.message] of the body, whatever its
    type, and [str(e)] when the body has no such field; it is rendered
    through the table of the five known statuses, with the generic text for
    any other status. *)
Theorem translator_renders_parsed_body (w : world) (status : Z)
    (content : list byte) (text : string) (detail : json) :
  utf8_ok content = true ->
  json_loads w (string_of_list_byte content) = Ok detail ->
  handle_google_error w (HttpError status content text)
  = Ok (rendered status
          (match structured_message detail with
           | Some m => py_str w m
           | None => text
           end)).
Proof.
  intros Hok Hjson.
  assert (Hm : error_message w content text
               = Ok (match structured_message detail with
                     | Some m => m
                     | None => JStr text
                     end)).
  { unfold error_message, bytes_decode. rewrite Hok.
    cbv beta iota delta [rbind]. rewrite Hjson.
    destruct detail; try reflexivity.
    unfold structured_message, py_get, dict_get.
    destruct (assoc "error" fields) as [err|]; [|reflexivity].
    destruct err; reflexivity. }
  unfold handle_google_error. rewrite Hm. cbv beta iota delta [rbind].
  unfold rendered, error_map, map_get.
  destruct (structured_message detail); reflexivity.
Qed.

Lemma translator_renders_parsed_body_witness :
  handle_google_error (parsing (Ok not_found_detail))
    (HttpError 404 [] "<HttpError 404>")
  = Ok "Risorsa non trovata: Resource Not Found: userKey"%string.
Proof.
  exact (translator_renders_parsed_body (parsing (Ok not_found_detail)) 404 []
           "<HttpError 404>" not_found_detail eq_refl eq_refl).
Defined.

(** X5.  When the body decodes and is not JSON, the message shown is
    [str(e)], rendered through the same table. *)
Theorem translator_falls_back_to_error_text (w : world) (status : Z)
    (content : list byte) (text reason : string) :
  utf8_ok content = true ->
  json_loads w (string_of_list_byte content) = Raise (PyExn JSONDecodeError reason) ->
  handle_google_error w (HttpError status content text) = Ok (rendered status text).
Proof.
  intros Hok Hjson. unfold handle_google_error, error_message, bytes_decode.
  rewrite Hok. cbv beta iota delta [rbind]. rewrite Hjson. reflexivity.
Qed.

Lemma translator_falls_back_to_error_text_witness :
  handle_google_error (deployment small_directory)
    (HttpError 503 [] "<HttpError 503 Service Unavailable>")
  = Ok "Errore API Google (HTTP 503): <HttpError 503 Service Unavailable>"%string.
Proof.
  exact (translator_falls_back_to_error_text (deployment small_directory) 503 []
           "<HttpError 503 Service Unavailable>" _ eq_refl eq_refl).
Defined.

(** *** What leaves a handler *)

Lemma pure_ok {A} (a : A) : pure_internal (Ok a).
Proof. intros e H. discriminate. Qed.

Lemma pure_raise {A} (cls : exn_class) (text : string) :
  pure_internal (@Raise A (PyExn cls text)).
Proof. intros e H. inversion H. now exists cls, text. Qed.

Lemma pure_rbind {A B} (r : result A) (k : A -> result B) :
  pure_internal r -> (forall a, pure_internal (k a)) -> pure_internal (rbind r k).
Proof.
  intros Hr Hk e H. destruct r as [a|e0]; simpl in H.
  - now apply (Hk a).
  - inversion H; subst. now apply Hr.
Qed.

Lemma py_get_pure (v : json) (k : string) (default : json) :
  pure_internal (py_get v k default).
Proof. destruct v; simpl; try apply pure_raise; apply pure_ok. Qed.

Lemma py_iter_pure (v : json) : pure_internal (py_iter v).
Proof. destruct v; simpl; try apply pure_raise; apply pure_ok. Qed.

Lemma py_len_pure (v : json) : pure_internal (py_len v).
Proof. destruct v; simpl; try apply pure_raise; apply pure_ok. Qed.

Lemma str_items_pure (items : list json) (i : nat) : pure_internal (str_items i items).
Proof.
  revert i. induction items as [|v items IH]; intros i; simpl.
  - apply pure_ok.
  - destruct v; try apply pure_raise.
    apply pure_rbind; [apply IH | intros; apply pure_ok].
Qed.

Lemma py_join_pure (sep : string) (v : json) : pure_internal (py_join sep v).
Proof.
  destruct v; simpl; try apply pure_raise; try apply pure_ok.
  apply pure_rbind; [apply str_items_pure | intros; apply pure_ok].
Qed.

Ltac pure :=
  repeat first
    [ apply pure_ok
    | apply pure_raise
    | apply py_get_pure
    | apply py_iter_pure
    | apply py_len_pure
    | apply py_join_pure
    | apply pure_rbind; [|intros ?]
    | match goal with
      | |- pure_internal (if ?b then _ else _) => destruct b
      end ].

Lemma format_user_pure (w : world) (u : json) : pure_internal (format_user w u).
Proof. unfold format_user. pure. Qed.

Lemma format_users_pure (w : world) (items : list json) :
  pure_internal (format_users w items).
Proof.
  induction items as [|u items IH]; simpl; [apply pure_ok|].
  apply pure_rbind; [apply format_user_pure | intros b].
  apply pure_rbind; [exact IH | intros; apply pure_ok].
Qed.

Lemma not_suspended_pure (items : list json) : pure_internal (not_suspended items).
Proof.
  induction items as [|u items IH]; simpl; [apply pure_ok|].
  apply pure_rbind; [apply py_get_pure | intros s].
  apply pure_rbind; [exact IH | intros; apply pure_ok].
Qed.

Lemma alias_lines_pure (w : world) (items : list json) :
  pure_internal (alias_lines w items).
Proof.
  induction items as [|u items IH]; simpl; [apply pure_ok|].
  apply pure_rbind; [apply py_get_pure | intros s].
  apply pure_rbind; [exact IH | intros; apply pure_ok].
Qed.

Lemma group_lines_pure (w : world) (items : list json) :
  pure_internal (group_lines w items).
Proof.
  induction items as [|u items IH]; simpl; [apply pure_ok|].
  repeat (apply pure_rbind; [apply py_get_pure | intros ?]).
  apply pure_rbind; [exact IH | intros; apply pure_ok].
Qed.

Lemma member_lines_pure (w : world) (items : list json) :
  pure_internal (member_lines w items).
Proof.
  induction items as [|u items IH]; simpl; [apply pure_ok|].
  repeat (apply pure_rbind; [apply py_get_pure | intros ?]).
  apply pure_rbind; [exact IH | intros; apply pure_ok].
Qed.

Lemma role_value_pure (role : option GroupMemberRole.t) :
  pure_internal (role_value role).
Proof. destruct role; simpl; [apply pure_ok | apply pure_raise]. Qed.

Lemma sourced_ret {A} (w : world) (a : A) : sourced w (ret a).
Proof. intros st e st' H. discriminate. Qed.

Lemma sourced_lift {A} (w : world) (r : result A) :
  pure_internal r -> sourced w (lift r).
Proof.
  intros Hr st e st' H. unfold lift in H. inversion H; subst. left. now apply Hr.
Qed.

Lemma sourced_bind {A B} (w : world) (m : M A) (k : A -> M B) :
  sourced w m -> (forall a, sourced w (k a)) -> sourced w (bind m k).
Proof.
  intros Hm Hk st e st' H. unfold bind in H.
  destruct (m st) as [[a|e0] st1] eqn:Hrun.
  - now apply (Hk a st1).
  - inversion H; subst. now apply (Hm st).
Qed.

Lemma sourced_get_directory_service (w : world) : sourced w (get_directory_service w).
Proof.
  intros st e st' H. unfold get_directory_service in H.
  destruct (negb (truthy (JStr (ADMIN_EMAIL w)))).
  - inversion H; subst. left. eexists; eexists; reflexivity.
  - inversion H; subst. right. left. exists st. split; [reflexivity|].
    assumption.
Qed.

Lemma sourced_call (w : world) (m : api_method) (kw : list (string * json)) :
  sourced w (call w m kw).
Proof.
  intros st e st' H. unfold call in H. inversion H; subst.
  right. right. exists st, (Request m kw). split; [reflexivity | assumption].
Qed.

Lemma sourced_password (w : world) (given : option string) :
  sourced w (password_or_generated w given).
Proof.
  intros st e st' H. unfold password_or_generated in H.
  destruct (truthy (opt_str given)).
  - discriminate.
  - unfold generate_temp_password in H.
    destruct (choices_allowed w chars chars_nonempty chars_allowed
                (Z.to_nat default_length) st) as (pw & Hrun & _).
    rewrite Hrun in H. discriminate.
Qed.

Ltac sourced_steps :=
  cbv zeta;
  repeat first
    [ apply sourced_ret
    | apply sourced_get_directory_service
    | apply sourced_call
    | apply sourced_password
    | apply sourced_lift;
      first [ apply format_user_pure | apply role_value_pure
            | apply pure_rbind;
              [ apply py_iter_pure
              | intros ?;
                first [ apply format_users_pure | apply alias_lines_pure
                      | apply group_lines_pure | apply member_lines_pure
                      | apply pure_rbind;
                        [apply not_suspended_pure | intros ?; apply pure_ok] ] ]
            | pure ]
    | apply sourced_bind; [|intros ?]
    | match goal with
      | |- sourced _ (if ?b then _ else _) => destruct b
      end ].

(** An exception that leaves a guarded body is the translator's, on a
    transport error that the last step of the run raised. *)
Lemma guarded_sourced (w : world) (body : M string) (st : state) (e' : exn) :
  sourced w body ->
  fst (try_except body (translated w) st) = Raise e' ->
  exists status content text,
    raised_in_run w (snd (try_except body (translated w) st))
      (HttpError status content text)
    /\ handle_google_error w (HttpError status content text) = Raise e'
    /\ (utf8_ok content = false
        \/ json_loads w (string_of_list_byte content) = Raise e').
Proof.
  intros Hbody. unfold try_except, translated, lift.
  destruct (body st) as [[s|e] st'] eqn:Hrun; cbn [fst snd]; [discriminate|].
  intros He. pose proof He as He0.
  apply handle_google_error_raises in He
    as (status & content & text & -> & Hwhy).
  exists status, content, text. split; [|split].
  - destruct (Hbody _ _ _ Hrun) as [(cls & t & Hint) | Hraised];
      [discriminate | exact Hraised].
  - exact He0.
  - destruct Hwhy as [[Hbad _] | (_ & Hjson & _)]; auto.
Qed.

Lemma guarded_opt_sourced (w : world) (body : M (option string)) (st : state)
    (e' : exn) :
  sourced w body ->
  fst (try_except body (translated_opt w) st) = Raise e' ->
  exists status content text,
    raised_in_run w (snd (try_except body (translated_opt w) st))
      (HttpError status content text)
    /\ handle_google_error w (HttpError status content text) = Raise e'
    /\ (utf8_ok content = false
        \/ json_loads w (string_of_list_byte content) = Raise e').
Proof.
  intros Hbody. unfold try_except, translated_opt, lift.
  destruct (body st) as [[s|e] st'] eqn:Hrun; cbn [fst snd]; [discriminate|].
  intros He.
  assert (He0 : handle_google_error w e = Raise e').
  { destruct (handle_google_error w e); simpl in He; [discriminate|].
    now inversion He. }
  pose proof He0 as He1.
  apply handle_google_error_raises in He0
    as (status & content & text & -> & Hwhy).
  exists status, content, text. split; [|split].
  - destruct (Hbody _ _ _ Hrun) as [(cls & t & Hint) | Hraised];
      [discriminate | exact Hraised].
  - exact He1.
  - destruct Hwhy as [[Hbad _] | (_ & Hjson & _)]; auto.
Qed.

(** X6.  Of the exceptions that [except Exception] catches, one leaves a
    tool only as the failure of the translator on a transport error that
    the run itself met: the credential provider or the request executed
    last raised that transport error, with a body that is not UTF-8 or
    whose parsing raised what the tool then raises.  So a run in which no
    such transport error is raised returns: a configuration error, a missing
    credential file, a malformed record or any other failure of a request
    comes back as text. *)
Theorem handlers_raise_only_from_translator (w : world) (st : state) (e' : exn) :
  let from_translator (final : state) :=
    exists status content text,
      raised_in_run w final (HttpError status content text)
      /\ handle_google_error w (HttpError status content text) = Raise e'
      /\ (utf8_ok content = false
          \/ json_loads w (string_of_list_byte content) = Raise e') in
  (forall p, fst (gw_list_users w p st) = Raise e' ->
             from_translator (snd (gw_list_users w p st)))
  /\ (forall p, fst (gw_get_user w p st) = Raise e' ->
                from_translator (snd (gw_get_user w p st)))
  /\ (forall p, fst (gw_create_user w p st) = Raise e' ->
                from_translator (snd (gw_create_user w p st)))
  /\ (forall p, fst (gw_delete_user w p st) = Raise e' ->
                from_translator (snd (gw_delete_user w p st)))
  /\ (forall p, fst (gw_suspend_user w p st) = Raise e' ->
                from_translator (snd (gw_suspend_user w p st)))
  /\ (forall p, fst (gw_reset_password w p st) = Raise e' ->
                from_translator (snd (gw_reset_password w p st)))
  /\ (forall p, fst (gw_manage_alias w p st) = Raise e' ->
                from_translator (snd (gw_manage_alias w p st)))
  /\ (forall p, fst (gw_list_groups w p st) = Raise e' ->
                from_translator (snd (gw_list_groups w p st)))
  /\ (forall p, fst (gw_manage_group_member w p st) = Raise e' ->
                from_translator (snd (gw_manage_group_member w p st)))
  /\ (forall p, fst (gw_move_user_org w p st) = Raise e' ->
                from_translator (snd (gw_move_user_org w p st))).
Proof.
  intros from_translator. unfold from_translator.
  repeat split; intros p.
  - apply guarded_sourced. sourced_steps.
  - apply guarded_sourced. sourced_steps.
  - apply guarded_sourced. sourced_steps.
  - unfold gw_delete_user.
    destruct (negb (DeleteUserInput.confirm p)); [discriminate|].
    apply guarded_sourced. sourced_steps.
  - apply guarded_sourced. sourced_steps.
  - apply guarded_sourced. sourced_steps.
  - apply guarded_opt_sourced. sourced_steps.
  - apply guarded_sourced. sourced_steps.
  - apply guarded_opt_sourced. sourced_steps.
  - apply guarded_sourced. sourced_steps.
Qed.

Lemma handlers_raise_only_from_translator_witness :
  exists status content text,
    raised_in_run (deployment broken_proxy)
      (snd (gw_get_user (deployment broken_proxy) (GetUserInput.Build "a@x.com") initial))
      (HttpError status content text)
    /\ handle_google_error (deployment broken_proxy) (HttpError status content text)
       = Raise (PyExn UnicodeDecodeError bad_start_byte)
    /\ (utf8_ok content = false
        \/ json_loads (deployment broken_proxy) (string_of_list_byte content)
           = Raise (PyExn UnicodeDecodeError bad_start_byte)).
Proof.
  exact (proj1 (proj2 (handlers_raise_only_from_translator (deployment broken_proxy)
                         initial (PyExn UnicodeDecodeError bad_start_byte)))
           (GetUserInput.Build "a@x.com") eq_refl).
Defined.

Lemma gw_manage_group_member_returns_text (w : world)
    (p : ManageGroupMemberInput.t) (st : state) :
  fst (gw_manage_group_member w p st) <> Ok None.
Proof.
  unfold gw_manage_group_member. run.
  destruct (get_directory_service w st) as [[[]|e] st0]; simpl.
  - destruct (ManageGroupMemberInput.action p); simpl.
    + destruct (ManageGroupMemberInput.member_email p) as [a|]; simpl; [|discriminate].
      destruct (negb (String.eqb a EmptyString)); simpl; [|discriminate].
      destruct (ManageGroupMemberInput.role p) as [r|]; simpl.
      * destruct (execute w _ _); simpl; [discriminate|].
        destruct (handle_google_error w e); simpl; discriminate.
      * discriminate.
    + destruct (ManageGroupMemberInput.member_email p) as [a|]; simpl; [|discriminate].
      destruct (negb (String.eqb a EmptyString)); simpl; [|discriminate].
      destruct (execute w _ _); simpl; [discriminate|].
      destruct (handle_google_error w e); simpl; discriminate.
    + destruct (execute w _ _) as [result|e]; simpl.
      * destruct (py_get result "members" (JArr [])) as [members|e]; simpl.
        -- destruct (truthy members); simpl; [|discriminate].
           destruct (rbind (py_iter members) (member_lines w)) as [lines|e]; simpl;
             [discriminate|].
           destruct (handle_google_error w e); simpl; discriminate.
        -- destruct (handle_google_error w e); simpl; discriminate.
      * destruct (handle_google_error w e); simpl; discriminate.
  - destruct (handle_google_error w e); simpl; discriminate.
Qed.

(** X7.  The two handlers that end in an if/elif without else never fall
    off the end: whatever the action and the outcome, what they return is a
    string, not [None]. *)
Theorem action_handlers_return_text (w : world) (st : state) :
  (forall p, fst (gw_manage_alias w p st) <> Ok None)
  /\ (forall p, fst (gw_manage_group_member w p st) <> Ok None).
Proof.
  split; intros p.
  - apply gw_manage_alias_returns_text.
  - apply gw_manage_group_member_returns_text.
Qed.

(** *** One request per tool *)

Ltac split_outcomes :=
  repeat match goal with
         | |- context [match ?x with Ok _ => _ | Raise _ => _ end] => destruct x
         | |- context [if ?b then _ else _] => destruct b
         end.

(** X8.  Once the handle is acquired, each of the four tools below, whose
    request the client accepts for every input, executes exactly one
    request, the one built from its input, and nothing after it, whatever
    the directory answers and whether or not the answer can be formatted. *)
Theorem single_request_tools (w : world) (st : state) :
  handle_acquired w ->
  (forall p, snd (gw_get_user w p st)
             = log (Call (get_request (GetUserInput.user_key p))) (log Acquire st))
  /\ (forall p, snd (gw_suspend_user w p st)
                = log (Call (suspend_request p)) (log Acquire st))
  /\ (forall p, snd (gw_move_user_org w p st)
                = log (Call (move_request p)) (log Acquire st))
  /\ (forall p, snd (gw_list_groups w p st)
                = log (Call (groups_request w p)) (log Acquire st)).
Proof.
  intros Hacq.
  repeat split; intros p;
    unfold gw_get_user, gw_suspend_user, gw_move_user_org,
      gw_list_groups, get_request, suspend_request, move_request,
      groups_request;
    run; rewrite (get_directory_service_acquired w st Hacq);
    cbv beta iota.
  - split_outcomes; reflexivity.
  - split_outcomes; reflexivity.
  - split_outcomes; reflexivity.
  - destruct (ListGroupsInput.user_key p) as [[|c k]|];
      cbv beta iota delta [opt_str truthy negb String.eqb];
      split_outcomes; reflexivity.
Qed.

Lemma single_request_tools_witness :
  calls (trace (snd (gw_list_groups (deployment small_directory)
                       (ListGroupsInput.Build (Some "a@x.com"%string) (Some 50%Z))
                       initial)))
  = [Request groups_list [("maxResults", JInt 50); ("userKey", JStr "a@x.com")]].
Proof.
  pose proof (single_request_tools (deployment small_directory) initial
                (conj eq_refl eq_refl)) as H.
  exact (f_equal (fun s => calls (trace s))
           (proj2 (proj2 (proj2 H))
              (ListGroupsInput.Build (Some "a@x.com"%string) (Some 50%Z)))).
Defined.

(** *** More on listing users *)

Lemma format_users_length (w : world) (items : list json) (blocks : list string) :
  format_users w items = Ok blocks -> List.length blocks = List.length items.
Proof.
  revert blocks. induction items as [|u rest IH]; simpl; intros blocks H.
  - now inversion H.
  - destruct (format_user w u) as [b|e]; simpl in H; [|discriminate].
    destruct (format_users w rest) as [bs|e]; simpl in H; [|discriminate].
    inversion H. simpl. now rewrite (IH bs eq_refl).
Qed.

(** What [gw_list_users] returns once the list call has answered. *)
Lemma gw_list_users_answered (w : world) (p : ListUsersInput.t) (st : state)
    (resp : json) :
  handle_acquired w ->
  execute w (trace (log Acquire st)) (list_request w p) = Ok resp ->
  fst (gw_list_users w p st)
  = match rbind (py_get resp "users" (JArr []))
            (fun users =>
               if negb (truthy (opt_bool (ListUsersInput.show_suspended p)))
               then rbind (rbind (py_iter users) not_suspended) (fun kept => Ok (JArr kept))
               else Ok users) with
    | Raise e => handle_google_error w e
    | Ok users =>
        if negb (truthy users) then Ok no_users
        else
          match rbind (py_len users)
                  (fun n => rbind (rbind (py_iter users) (format_users w))
                              (fun blocks => Ok (users_listing n blocks))) with
          | Ok out => Ok out
          | Raise e => handle_google_error w e
          end
    end.
Proof.
  intros Hacq Hexec. unfold gw_list_users. run.
  rewrite (get_directory_service_acquired w st Hacq).
  unfold list_request in Hexec. rewrite Hexec.
  destruct (py_get resp "users" (JArr [])) as [users|e]; [|reflexivity].
  cbv beta iota delta [rbind].
  destruct (negb (truthy (opt_bool (ListUsersInput.show_suspended p)))).
  - destruct (py_iter users) as [items|e]; [|reflexivity].
    destruct (not_suspended items) as [kept|e]; [|reflexivity].
    destruct kept as [|u kept]; [reflexivity|].
    cbv beta iota delta [truthy negb py_len py_iter].
    destruct (format_users w (u :: kept)); reflexivity.
  - destruct (negb (truthy users)); [reflexivity|].
    destruct (py_len users) as [n|e]; [|reflexivity].
    destruct (py_iter users) as [items|e]; [|reflexivity].
    destruct (format_users w items); reflexivity.
Qed.

(** X9.  With [show_suspended=false], when every record the list call
    returned is suspended, the result is the no-result message, although the
    directory returned records. *)
Theorem list_users_all_suspended (w : world) (p : ListUsersInput.t) (st : state)
    (resp : list (string * json)) (items : list json) :
  ListUsersInput.show_suspended p = Some false ->
  handle_acquired w ->
  execute w (trace (log Acquire st)) (list_request w p) = Ok (JObj resp) ->
  dict_get resp "users" (JArr []) = JArr items ->
  Forall (fun u => is_record u /\ is_suspended u = true) items ->
  fst (gw_list_users w p st) = Ok no_users.
Proof.
  intros Hflag Hacq Hexec Husers Hall.
  rewrite (gw_list_users_answered w p st _ Hacq Hexec), Hflag.
  cbv beta iota delta [py_get rbind opt_bool truthy negb]. rewrite Husers.
  cbv beta iota delta [py_iter].
  rewrite not_suspended_filter.
  - replace (filter (fun u => negb (is_suspended u)) items) with (@nil json);
      [reflexivity|].
    symmetry. clear Husers. induction Hall as [|u rest [_ Hs] _ IH]; simpl.
    + reflexivity.
    + now rewrite Hs.
  - eapply Forall_impl; [|exact Hall]. simpl. tauto.
Qed.

Lemma list_users_all_suspended_witness :
  fst (gw_list_users (deployment suspended_directory)
         (ListUsersInput.Build None (Some 100%Z) (Some "email"%string) (Some false))
         initial)
  = Ok no_users.
Proof.
  apply (list_users_all_suspended (deployment suspended_directory)
           (ListUsersInput.Build None (Some 100%Z) (Some "email"%string) (Some false))
           initial [("users", JArr [user_b_suspended])] [user_b_suspended]
           eq_refl (conj eq_refl eq_refl) eq_refl eq_refl).
  constructor; [|constructor].
  split; [now exists user_b_fields | reflexivity].
Defined.

(** X10.  With [show_suspended=true] nothing is filtered: every record of
    the response is formatted, suspended or not, one block for each, and the
    count in the heading is the number of records returned. *)
Theorem list_users_shows_all (w : world) (p : ListUsersInput.t) (st : state)
    (resp : json) (u : json) (rest : list json) (blocks : list string) :
  ListUsersInput.show_suspended p = Some true ->
  handle_acquired w ->
  execute w (trace (log Acquire st)) (list_request w p) = Ok resp ->
  py_get resp "users" (JArr []) = Ok (JArr (u :: rest)) ->
  format_users w (u :: rest) = Ok blocks ->
  fst (gw_list_users w p st) = Ok (users_listing (S (List.length rest)) blocks)
  /\ List.length blocks = S (List.length rest).
Proof.
  intros Hflag Hacq Hexec Husers Hfmt. split.
  - rewrite (gw_list_users_answered w p st _ Hacq Hexec), Hflag, Husers.
    cbv beta iota delta [rbind opt_bool truthy negb py_len py_iter List.length].
    rewrite Hfmt. reflexivity.
  - apply (format_users_length w _ _ Hfmt).
Qed.

Lemma list_users_shows_all_witness :
  exists blocks,
    fst (gw_list_users (deployment small_directory)
           (ListUsersInput.Build None (Some 100%Z) (Some "email"%string) (Some true))
           initial)
    = Ok (users_listing 2 blocks)
    /\ List.length blocks = 2.
Proof.
  eexists.
  exact (list_users_shows_all (deployment small_directory)
           (ListUsersInput.Build None (Some 100%Z) (Some "email"%string) (Some true))
           initial _ user_a [user_b_suspended] _
           eq_refl (conj eq_refl eq_refl) eq_refl eq_refl eq_refl).
Defined.

(** X11.  A response without a users key, or with an empty list under it,
    gives the no-result message, with and without the filter. *)
Theorem list_users_nothing_returned (w : world) (p : ListUsersInput.t) (st : state)
    (resp : list (string * json)) :
  handle_acquired w ->
  execute w (trace (log Acquire st)) (list_request w p) = Ok (JObj resp) ->
  assoc "users" resp = None \/ assoc "users" resp = Some (JArr []) ->
  fst (gw_list_users w p st) = Ok no_users.
Proof.
  intros Hacq Hexec Hnone.
  rewrite (gw_list_users_answered w p st _ Hacq Hexec).
  assert (Husers : dict_get resp "users" (JArr []) = JArr []).
  { unfold dict_get. destruct Hnone as [-> | ->]; reflexivity. }
  cbv beta iota delta [py_get rbind]. rewrite Husers.
  destruct (negb (truthy (opt_bool (ListUsersInput.show_suspended p))));
    reflexivity.
Qed.

Lemma list_users_nothing_returned_witness :
  fst (gw_list_users (deployment empty_directory)
         (ListUsersInput.Build (Some "name:Mario"%string) (Some 100%Z)
            (Some "email"%string) None)
         initial)
  = Ok no_users.
Proof.
  exact (list_users_nothing_returned (deployment empty_directory)
           (ListUsersInput.Build (Some "name:Mario"%string) (Some 100%Z)
              (Some "email"%string) None)
           initial [] (conj eq_refl eq_refl) eq_refl (or_introl eq_refl)).
Defined.

(** X12.  The list call always carries the customer, the result cap and
    the sort field; it carries a query only when the input has a non-empty
    one, so an empty query string is not sent as a filter. *)
Theorem list_users_request_arguments (w : world) (p : ListUsersInput.t) :
  let kw := kwargs (list_request w p) in
  assoc "customer" kw = Some (JStr (CUSTOMER_ID w))
  /\ assoc "maxResults" kw = Some (opt_int (ListUsersInput.max_results p))
  /\ assoc "orderBy" kw = Some (opt_str (ListUsersInput.order_by p))
  /\ assoc "query" kw
     = match ListUsersInput.query p with
       | Some (String c q) => Some (JStr (String c q))
       | _ => None
       end
  /\ List.length kw
     = match ListUsersInput.query p with
       | Some (String _ _) => 4
       | _ => 3
       end.
Proof.
  unfold list_request, list_users_kwargs. cbn [kwargs].
  destruct (ListUsersInput.query p) as [[|c q]|]; repeat split.
Qed.

(** *** Formatting a user *)

Lemma str_items_strings (i : nat) (ss : list string) :
  str_items i (map JStr ss) = Ok ss.
Proof.
  revert i. induction ss as [|s ss IH]; intros i; simpl.
  - reflexivity.
  - now rewrite IH.
Qed.

(** X13.  For a record whose name is absent or an object and whose aliases
    are absent or a list of strings, [format_user] returns seven fixed lines
    with [N/A], [Mai] and [No] for missing fields, then an alias line only
    when there is at least one alias, then the organizational unit, which
    defaults to the root and is left out only when the record has an empty
    one. *)
Theorem format_user_well_formed (w : world) (d n : list (string * json))
    (aliases : list string) :
  dict_get d "name" (JObj []) = JObj n ->
  dict_get d "aliases" (JArr []) = JArr (map JStr aliases) ->
  format_user w (JObj d)
  = Ok (String.concat nl
          ([ "📧 **" ++ py_str w (dict_get d "primaryEmail" (JStr "N/A")) ++ "**";
             "   Nome: " ++ py_str w (dict_get n "fullName" (JStr "N/A"));
             "   ID: " ++ py_str w (dict_get d "id" (JStr "N/A"));
             "   Stato: " ++ (if truthy (dict_get d "suspended" JNull)
                              then "🔴 Sospeso" else "🟢 Attivo");
             "   Admin: " ++ (if truthy (dict_get d "isAdmin" JNull) then "Sì" else "No");
             "   Ultimo accesso: " ++ py_str w (dict_get d "lastLoginTime" (JStr "Mai"));
             "   Creazione: " ++ py_str w (dict_get d "creationTime" (JStr "N/A")) ]%string
           ++ match aliases with
              | [] => []
              | _ :: _ => [("   Alias: " ++ String.concat ", " aliases)%string]
              end
           ++ (if truthy (dict_get d "orgUnitPath" (JStr "/"))
               then [("   Unità org.: "
                      ++ py_str w (dict_get d "orgUnitPath" (JStr "/")))%string]
               else []))).
Proof.
  intros Hname Haliases. unfold format_user.
  cbv beta iota delta [py_get rbind]. rewrite Hname, Haliases.
  cbv beta iota.
  destruct aliases as [|a aliases].
  - cbn [map]. change (truthy (JArr [])) with false. cbv iota.
    destruct (truthy (dict_get d "suspended" JNull));
      destruct (truthy (dict_get d "orgUnitPath" (JStr "/"))); reflexivity.
  - change (truthy (JArr (map JStr (a :: aliases)))) with true. cbv iota.
    unfold py_join. rewrite (str_items_strings 0 (a :: aliases)).
    cbv beta iota delta [rbind].
    destruct (truthy (dict_get d "suspended" JNull));
      destruct (truthy (dict_get d "orgUnitPath" (JStr "/"))); reflexivity.
Qed.

Lemma format_user_well_formed_witness :
  format_user (deployment small_directory) user_c
  = Ok ("📧 **c@x.com**" ++ nl
        ++ "   Nome: C D" ++ nl
        ++ "   ID: 3" ++ nl
        ++ "   Stato: 🟢 Attivo" ++ nl
        ++ "   Admin: Sì" ++ nl
        ++ "   Ultimo accesso: Mai" ++ nl
        ++ "   Creazione: N/A" ++ nl
        ++ "   Alias: cd@x.com, c.d@x.com" ++ nl
        ++ "   Unità org.: /IT")%string.
Proof.
  exact (format_user_well_formed (deployment small_directory) user_c_fields
           [("fullName", JStr "C D")] ["cd@x.com"; "c.d@x.com"]%string
           eq_refl eq_refl).
Defined.

(** X14.  When the get call answers something that is not a record, or a
    record whose name is not an object, [gw_get_user] returns the
    unexpected-error text of the attribute error, naming the type of the
    offending value. *)
Theorem get_user_malformed_record (w : world) (p : GetUserInput.t) (st : state)
    (user : json) :
  handle_acquired w ->
  execute w (trace (log Acquire st)) (get_request (GetUserInput.user_key p)) = Ok user ->
  (~ is_record user ->
   fst (gw_get_user w p st) = Ok (unexpected_attribute_error user))
  /\ (forall d name,
         user = JObj d ->
         dict_get d "name" (JObj []) = name ->
         ~ is_record name ->
         fst (gw_get_user w p st) = Ok (unexpected_attribute_error name)).
Proof.
  intros Hacq Hexec.
  assert (Hrun : fst (gw_get_user w p st)
                 = match format_user w user with
                   | Ok b => Ok b
                   | Raise e => handle_google_error w e
                   end).
  { unfold gw_get_user. run.
    rewrite (get_directory_service_acquired w st Hacq).
    unfold get_request in Hexec. rewrite Hexec.
    destruct (format_user w user); reflexivity. }
  rewrite Hrun. split.
  - intros Hnot. unfold format_user.
    destruct user; try reflexivity.
    exfalso. apply Hnot. now exists fields.
  - intros d name -> Hname Hnot. unfold format_user.
    cbv beta iota delta [py_get rbind]. rewrite Hname.
    destruct name; try reflexivity.
    exfalso. apply Hnot. now exists fields.
Qed.

Lemma get_user_malformed_record_witness :
  fst (gw_get_user (deployment nameless_directory) (GetUserInput.Build "a@x.com") initial)
  = Ok "Errore imprevisto: AttributeError: 'NoneType' object has no attribute 'get'"%string.
Proof.
  refine (proj2 (get_user_malformed_record (deployment nameless_directory)
                   (GetUserInput.Build "a@x.com") initial _
                   (conj eq_refl eq_refl) eq_refl)
            _ JNull eq_refl eq_refl _).
  intros [d Hd]. discriminate Hd.
Defined.

(** X15.  With [confirm=true], when the get call answers something that is
    not a record, or a record whose name is not an object, no delete call is
    issued: the get call is the only request, and the result is the
    unexpected-error text of the attribute error. *)
Theorem delete_confirmed_malformed_record (w : world) (p : DeleteUserInput.t)
    (st : state) (user : json) :
  DeleteUserInput.confirm p = true ->
  handle_acquired w ->
  execute w (trace (log Acquire st)) (get_request (DeleteUserInput.user_key p))
  = Ok user ->
  let told bad :=
    gw_delete_user w p st
    = (Ok (unexpected_attribute_error bad),
       log (Call (get_request (DeleteUserInput.user_key p))) (log Acquire st)) in
  (~ is_record user -> told user)
  /\ (forall d name,
         user = JObj d ->
         dict_get d "name" (JObj []) = name ->
         ~ is_record name ->
         told name).
Proof.
  intros Hconfirm Hacq Hexec told. unfold told.
  unfold gw_delete_user. rewrite Hconfirm. cbv beta iota delta [negb]. run.
  rewrite (get_directory_service_acquired w st Hacq).
  unfold get_request in Hexec |- *. rewrite Hexec. split.
  - intros Hnot. destruct user; try reflexivity.
    exfalso. apply Hnot. now exists fields.
  - intros d name -> Hname Hnot.
    cbv beta iota delta [py_get]. rewrite Hname.
    destruct name; try reflexivity.
    exfalso. apply Hnot. now exists fields.
Qed.

Lemma delete_confirmed_malformed_record_witness :
  calls (trace (snd (gw_delete_user (deployment nameless_directory)
                       (DeleteUserInput.Build "a@x.com" true) initial)))
  = [get_request "a@x.com"].
Proof.
  refine (f_equal (fun r => calls (trace (snd r)))
            (proj2 (delete_confirmed_malformed_record (deployment nameless_directory)
                      (DeleteUserInput.Build "a@x.com" true) initial _
                      eq_refl (conj eq_refl eq_refl) eq_refl)
               _ JNull eq_refl eq_refl _)).
  intros [d Hd]. discriminate Hd.
Defined.

(** *** Passwords given and generated *)

(** X16.  A non-empty password given to create-user is sent as it is and
    shown as it is, and the random source is not touched. *)
Theorem create_user_explicit_password (w : world) (p : CreateUserInput.t)
    (st : state) (c : ascii) (rest : string) :
  CreateUserInput.password p = Some (String c rest) ->
  handle_acquired w ->
  let pw := String c rest in
  snd (gw_create_user w p st) = log (Call (insert_request p pw)) (log Acquire st)
  /\ draws (snd (gw_create_user w p st)) = draws st
  /\ assoc "password" (user_body p pw) = Some (JStr pw)
  /\ (forall created block,
         execute w (trace (log Acquire st)) (insert_request p pw) = Ok created ->
         format_user w created = Ok block ->
         fst (gw_create_user w p st)
         = Ok (created_text block pw
                 (truthy (opt_bool (CreateUserInput.change_password_at_next_login p))))).
Proof.
  intros Hpw Hacq pw.
  assert (Hgiven : password_or_generated w (CreateUserInput.password p) (log Acquire st)
                   = (Ok pw, log Acquire st)) by (rewrite Hpw; reflexivity).
  rewrite (gw_create_user_acquired w p st _ pw Hacq Hgiven).
  repeat split.
  - apply user_body_password.
  - intros created block Hexec Hfmt. cbn [fst]. now rewrite Hexec, Hfmt.
Qed.

Lemma create_user_explicit_password_witness :
  calls (trace (snd (gw_create_user (deployment small_directory)
                       (CreateUserInput.Build "a@x.com" "A" "B" (Some "S3cret!pw"%string)
                          (Some "/"%string) (Some true) None None) initial)))
  = [insert_request
       (CreateUserInput.Build "a@x.com" "A" "B" (Some "S3cret!pw"%string)
          (Some "/"%string) (Some true) None None)
       "S3cret!pw"].
Proof.
  exact (f_equal (fun s => calls (trace s))
           (proj1 (create_user_explicit_password (deployment small_directory)
                     (CreateUserInput.Build "a@x.com" "A" "B" (Some "S3cret!pw"%string)
                        (Some "/"%string) (Some true) None None)
                     initial _ _ eq_refl (conj eq_refl eq_refl)))).
Defined.

(** X17.  An empty password string counts as no password: create-user and
    reset-password then run exactly as if the field had been omitted, and
    generate one. *)
Theorem empty_password_means_generated (w : world) (st : state) :
  (forall email first last org change remail rphone,
      gw_create_user w
        (CreateUserInput.Build email first last (Some EmptyString) org change remail rphone)
        st
      = gw_create_user w
          (CreateUserInput.Build email first last None org change remail rphone) st)
  /\ (forall key force,
         gw_reset_password w (ResetPasswordInput.Build key (Some EmptyString) force) st
         = gw_reset_password w (ResetPasswordInput.Build key None force) st).
Proof. split; reflexivity. Qed.

(** X18.  Reset-password sends one update whose body holds the password
    and the force-change flag, and the password it shows is the one it
    sent: the given one when there is a non-empty one, otherwise a generated
    one of sixteen allowed characters.  The email shown is the one of the
    answer, or [None] when the answer has none. *)
Theorem reset_password_sends_what_it_shows (w : world) (p : ResetPasswordInput.t)
    (st : state) :
  handle_acquired w ->
  exists pw st1,
    password_or_generated w (ResetPasswordInput.new_password p) (log Acquire st)
    = (Ok pw, st1)
    /\ match ResetPasswordInput.new_password p with
       | Some (String c rest) => pw = String c rest /\ st1 = log Acquire st
       | _ => String.length pw = 16
              /\ Forall (fun c => allowed_char c = true) (list_ascii_of_string pw)
       end
    /\ snd (gw_reset_password w p st) = log (Call (reset_request p pw)) st1
    /\ calls (trace (snd (gw_reset_password w p st)))
       = calls (trace st) ++ [reset_request p pw]
    /\ (forall d,
           execute w (trace st1) (reset_request p pw) = Ok (JObj d) ->
           fst (gw_reset_password w p st)
           = Ok ("🔑 Password resettata per: **"
                 ++ py_str w (dict_get d "primaryEmail" JNull) ++ "**" ++ nl ++ nl
                 ++ "Nuova password: `" ++ pw ++ "`" ++ nl
                 ++ (if truthy (opt_bool (ResetPasswordInput.force_change p))
                     then "⚠️ L'utente dovrà cambiarla al prossimo accesso."
                     else EmptyString) ++ nl ++ nl
                 ++ "Comunica la nuova password in modo sicuro.")%string).
Proof.
  intros Hacq.
  assert (Hgen : exists pw st1,
             password_or_generated w (ResetPasswordInput.new_password p) (log Acquire st)
             = (Ok pw, st1)
             /\ trace st1 = trace (log Acquire st)
             /\ match ResetPasswordInput.new_password p with
                | Some (String c rest) => pw = String c rest /\ st1 = log Acquire st
                | _ => String.length pw = 16
                       /\ Forall (fun c => allowed_char c = true)
                                 (list_ascii_of_string pw)
                end).
  { destruct (choices_allowed w chars chars_nonempty chars_allowed
                (Z.to_nat default_length) (log Acquire st))
      as (gen & Hrun & Hlen & Hall).
    destruct (ResetPasswordInput.new_password p) as [[|c rest]|].
    - exists gen. eexists. split; [exact Hrun|]. auto.
    - exists (String c rest), (log Acquire st). auto.
    - exists gen. eexists. split; [exact Hrun|]. auto. }
  destruct Hgen as (pw & st1 & Hpw & Htrace & Hshape).
  exists pw, st1. split; [exact Hpw|]. split; [exact Hshape|].
  assert (Hrun : gw_reset_password w p st
                 = (match execute w (trace st1) (reset_request p pw) with
                    | Ok updated =>
                        match py_get updated "primaryEmail" JNull with
                        | Ok email =>
                            Ok ("🔑 Password resettata per: **"
                                ++ py_str w email ++ "**" ++ nl ++ nl
                                ++ "Nuova password: `" ++ pw ++ "`" ++ nl
                                ++ (if truthy (opt_bool (ResetPasswordInput.force_change p))
                                    then "⚠️ L'utente dovrà cambiarla al prossimo accesso."
                                    else EmptyString) ++ nl ++ nl
                                ++ "Comunica la nuova password in modo sicuro.")%string
                        | Raise e => handle_google_error w e
                        end
                    | Raise e => handle_google_error w e
                    end,
                    log (Call (reset_request p pw)) st1)).
  { unfold gw_reset_password. run.
    rewrite (get_directory_service_acquired w st Hacq), Hpw.
    unfold reset_request.
    destruct (execute w (trace st1) _) as [updated|e]; [|reflexivity].
    destruct (py_get updated "primaryEmail" JNull); reflexivity. }
  rewrite Hrun. cbn [fst snd]. split; [reflexivity|]. split.
  - rewrite calls_log_call, Htrace. now rewrite calls_log_acquire.
  - intros d Hexec. now rewrite Hexec.
Qed.

Lemma reset_password_sends_what_it_shows_witness :
  exists pw st1,
    password_or_generated (deployment terse_directory) None (log Acquire initial)
    = (Ok pw, st1)
    /\ String.length pw = 16
    /\ fst (gw_reset_password (deployment terse_directory)
              (ResetPasswordInput.Build "a@x.com" None (Some false)) initial)
       = Ok ("🔑 Password resettata per: **None**" ++ nl ++ nl
             ++ "Nuova password: `" ++ pw ++ "`" ++ nl ++ nl ++ nl
             ++ "Comunica la nuova password in modo sicuro.")%string.
Proof.
  destruct (reset_password_sends_what_it_shows (deployment terse_directory)
              (ResetPasswordInput.Build "a@x.com" None (Some false)) initial
              (conj eq_refl eq_refl))
    as (pw & st1 & Hpw & [Hlen _] & _ & _ & Hout).
  exists pw, st1. split; [exact Hpw|]. split; [exact Hlen|].
  exact (Hout [("id", JStr "7")] eq_refl).
Defined.

(** *** Suspending and moving a user *)

(** X19.  On success suspend/reactivate names in its heading the action
    that was requested and the email of the answer ([None] when the answer
    has none), and shows below it the record of the answer as it came
    back. *)
Theorem suspend_user_confirmation (w : world) (p : SuspendUserInput.t) (st : state)
    (d : list (string * json)) (block : string) :
  handle_acquired w ->
  execute w (trace (log Acquire st)) (suspend_request p) = Ok (JObj d) ->
  format_user w (JObj d) = Ok block ->
  fst (gw_suspend_user w p st)
  = Ok ("✅ Utente "
        ++ (if SuspendUserInput.suspend p then "sospeso 🔴" else "riattivato 🟢")
        ++ ": **" ++ py_str w (dict_get d "primaryEmail" JNull) ++ "**"
        ++ nl ++ nl ++ block)%string.
Proof.
  intros Hacq Hexec Hfmt. unfold gw_suspend_user. run.
  rewrite (get_directory_service_acquired w st Hacq).
  unfold suspend_request in Hexec. rewrite Hexec.
  cbv beta iota delta [py_get]. rewrite Hfmt. reflexivity.
Qed.

Lemma suspend_user_confirmation_witness :
  fst (gw_suspend_user (deployment suspended_directory)
         (SuspendUserInput.Build "b@x.com" false) initial)
  = Ok ("✅ Utente riattivato 🟢: **b@x.com**" ++ nl ++ nl
        ++ "📧 **b@x.com**" ++ nl
        ++ "   Nome: B C" ++ nl
        ++ "   ID: 2" ++ nl
        ++ "   Stato: 🔴 Sospeso" ++ nl
        ++ "   Admin: No" ++ nl
        ++ "   Ultimo accesso: Mai" ++ nl
        ++ "   Creazione: N/A" ++ nl
        ++ "   Unità org.: /")%string.
Proof.
  exact (suspend_user_confirmation (deployment suspended_directory)
           (SuspendUserInput.Build "b@x.com" false) initial user_b_fields _
           (conj eq_refl eq_refl) eq_refl eq_refl).
Defined.

(** X20.  Move-user confirms with the email of the answer and the path that
    was requested; an answer without an email is confirmed as [None], and an
    answer that is not a record is reported as an unexpected error although
    the update was executed. *)
Theorem move_user_confirmation (w : world) (p : MoveUserOrgInput.t) (st : state)
    (updated : json) :
  handle_acquired w ->
  execute w (trace (log Acquire st)) (move_request p) = Ok updated ->
  calls (trace (snd (gw_move_user_org w p st))) = calls (trace st) ++ [move_request p]
  /\ fst (gw_move_user_org w p st)
     = match updated with
       | JObj d =>
           Ok ("✅ **" ++ py_str w (dict_get d "primaryEmail" JNull)
               ++ "** spostato in **" ++ MoveUserOrgInput.org_unit_path p ++ "**")%string
       | _ => Ok (unexpected_attribute_error updated)
       end
  /\ (forall d,
         updated = JObj d ->
         assoc "primaryEmail" d = None ->
         fst (gw_move_user_org w p st)
         = Ok ("✅ **None** spostato in **"
               ++ MoveUserOrgInput.org_unit_path p ++ "**")%string).
Proof.
  intros Hacq Hexec.
  assert (Hrun : gw_move_user_org w p st
                 = (match updated with
                    | JObj d =>
                        Ok ("✅ **" ++ py_str w (dict_get d "primaryEmail" JNull)
                            ++ "** spostato in **"
                            ++ MoveUserOrgInput.org_unit_path p ++ "**")%string
                    | _ => Ok (unexpected_attribute_error updated)
                    end,
                    log (Call (move_request p)) (log Acquire st))).
  { unfold gw_move_user_org. run.
    rewrite (get_directory_service_acquired w st Hacq).
    unfold move_request in Hexec |- *. rewrite Hexec.
    destruct updated; reflexivity. }
  rewrite Hrun. cbn [fst snd]. split; [|split].
  - now rewrite calls_log_call, calls_log_acquire.
  - reflexivity.
  - intros d -> Hnone. unfold dict_get. now rewrite Hnone.
Qed.

Lemma move_user_confirmation_witness :
  fst (gw_move_user_org (deployment terse_directory)
         (MoveUserOrgInput.Build "a@x.com" "/IT") initial)
  = Ok "✅ **None** spostato in **/IT**"%string.
Proof.
  exact (proj2 (proj2 (move_user_confirmation (deployment terse_directory)
                         (MoveUserOrgInput.Build "a@x.com" "/IT") initial _
                         (conj eq_refl eq_refl) eq_refl))
           [("id", JStr "7")] eq_refl eq_refl).
Defined.

(** *** Aliases *)

(** X21.  With a non-empty [alias_email], add executes one insert and
    remove one delete, each for that alias and that user and nothing else;
    the result is the confirmation naming both, or the translated failure of
    the call. *)
Theorem manage_alias_add_remove (w : world) (p : ManageAliasInput.t) (st : state)
    (c : ascii) (rest : string) :
  ManageAliasInput.alias_email p = Some (String c rest) ->
  handle_acquired w ->
  let k := ManageAliasInput.user_key p in
  let a := String c rest in
  let st0 := log Acquire st in
  (ManageAliasInput.action p = AliasAction.ADD ->
   gw_manage_alias w p st
   = (match execute w (trace st0) (alias_insert_request k a) with
      | Ok _ => Ok (Some ("✅ Alias **" ++ a ++ "** aggiunto a " ++ k)%string)
      | Raise e => rbind (handle_google_error w e) (fun s => Ok (Some s))
      end,
      log (Call (alias_insert_request k a)) st0))
  /\ (ManageAliasInput.action p = AliasAction.REMOVE ->
      gw_manage_alias w p st
      = (match execute w (trace st0) (alias_delete_request k a) with
         | Ok _ => Ok (Some ("🗑️ Alias **" ++ a ++ "** rimosso da " ++ k)%string)
         | Raise e => rbind (handle_google_error w e) (fun s => Ok (Some s))
         end,
         log (Call (alias_delete_request k a)) st0)).
Proof.
  intros Hemail Hacq k a st0.
  split; intros Haction; unfold gw_manage_alias; run;
    rewrite (get_directory_service_acquired w st Hacq), Haction, Hemail;
    cbv beta iota delta [AliasAction.eqb opt_str truthy negb String.eqb];
    unfold alias_insert_request, alias_delete_request, k, a, st0;
    destruct (execute w _ _); reflexivity.
Qed.

Lemma manage_alias_add_remove_witness :
  gw_manage_alias (deployment empty_directory)
    (ManageAliasInput.Build "a@x.com" AliasAction.ADD (Some "aa@x.com"%string)) initial
  = (Ok (Some "✅ Alias **aa@x.com** aggiunto a a@x.com"%string),
     State [Acquire; Call (alias_insert_request "a@x.com" "aa@x.com")] 0).
Proof.
  exact (proj1 (manage_alias_add_remove (deployment empty_directory)
                  (ManageAliasInput.Build "a@x.com" AliasAction.ADD
                     (Some "aa@x.com"%string))
                  initial _ _ eq_refl (conj eq_refl eq_refl)) eq_refl).
Defined.

Lemma alias_lines_records (w : world) (ds : list (list (string * json))) :
  alias_lines w (map JObj ds)
  = Ok (map (fun d => ("- " ++ py_str w (dict_get d "alias" (JStr "N/A")))%string) ds).
Proof.
  induction ds as [|d ds IH]; simpl.
  - reflexivity.
  - now rewrite IH.
Qed.

(** X22.  Listing aliases executes one list call for the user, whatever
    [alias_email] holds.  An answer without aliases, or with an empty list,
    gives the no-alias message for that user; an answer with alias records
    gives a heading and one line for each, with [N/A] for a record that has
    no alias field. *)
Theorem manage_alias_list (w : world) (p : ManageAliasInput.t) (st : state)
    (resp : list (string * json)) :
  ManageAliasInput.action p = AliasAction.LIST ->
  handle_acquired w ->
  let k := ManageAliasInput.user_key p in
  execute w (trace (log Acquire st)) (alias_list_request k) = Ok (JObj resp) ->
  snd (gw_manage_alias w p st) = log (Call (alias_list_request k)) (log Acquire st)
  /\ (assoc "aliases" resp = None \/ assoc "aliases" resp = Some (JArr []) ->
      fst (gw_manage_alias w p st)
      = Ok (Some ("Nessun alias configurato per " ++ k ++ ".")%string))
  /\ (forall d ds,
         assoc "aliases" resp = Some (JArr (map JObj (d :: ds))) ->
         fst (gw_manage_alias w p st)
         = Ok (Some (String.concat nl
                       (("## Alias per " ++ k ++ nl)%string
                        :: map (fun d => ("- " ++ py_str w
                                                    (dict_get d "alias" (JStr "N/A")))%string)
                             (d :: ds))))).
Proof.
  intros Haction Hacq k Hexec.
  assert (Hrun : gw_manage_alias w p st
                 = (let aliases := dict_get resp "aliases" (JArr []) in
                    if negb (truthy aliases)
                    then Ok (Some ("Nessun alias configurato per " ++ k ++ ".")%string)
                    else
                      match rbind (py_iter aliases) (alias_lines w) with
                      | Ok lines =>
                          Ok (Some (String.concat nl
                                      (("## Alias per " ++ k ++ nl)%string :: lines)))
                      | Raise e => rbind (handle_google_error w e) (fun s => Ok (Some s))
                      end,
                    log (Call (alias_list_request k)) (log Acquire st))).
  { unfold gw_manage_alias. run.
    rewrite (get_directory_service_acquired w st Hacq), Haction.
    unfold alias_list_request in Hexec. cbv beta iota delta [AliasAction.eqb].
    fold k. rewrite Hexec. cbv beta iota delta [py_get].
    destruct (negb (truthy (dict_get resp "aliases" (JArr [])))); [reflexivity|].
    destruct (rbind (py_iter (dict_get resp "aliases" (JArr []))) (alias_lines w));
      reflexivity. }
  rewrite Hrun. cbn [fst snd]. split; [reflexivity|]. split.
  - intros Hnone. unfold dict_get. destruct Hnone as [-> | ->]; reflexivity.
  - intros d ds Hsome. unfold dict_get. rewrite Hsome.
    cbn [map truthy negb py_iter rbind].
    change (JObj d :: map JObj ds) with (map JObj (d :: ds)).
    rewrite alias_lines_records. reflexivity.
Qed.

Lemma manage_alias_list_witness :
  fst (gw_manage_alias (deployment alias_directory)
         (ManageAliasInput.Build "a@x.com" AliasAction.LIST (Some "ignored@x.com"%string))
         initial)
  = Ok (Some ("## Alias per a@x.com" ++ nl ++ nl ++ "- aa@x.com" ++ nl ++ "- N/A")%string).
Proof.
  exact (proj2 (proj2 (manage_alias_list (deployment alias_directory)
                         (ManageAliasInput.Build "a@x.com" AliasAction.LIST
                            (Some "ignored@x.com"%string))
                         initial _ eq_refl (conj eq_refl eq_refl) eq_refl))
           [("alias", JStr "aa@x.com")] [[]] eq_refl).
Defined.

(** *** Group members *)

(** X23.  Listing the members of a group executes one list call for the
    group; an answer without members, or with an empty list, gives exactly
    the no-members sentence for that group. *)
Theorem group_without_members (w : world) (p : ManageGroupMemberInput.t) (st : state)
    (resp : list (string * json)) :
  ManageGroupMemberInput.action p = GroupMemberAction.LIST ->
  handle_acquired w ->
  let g := ManageGroupMemberInput.group_key p in
  execute w (trace (log Acquire st)) (members_list_request g) = Ok (JObj resp) ->
  assoc "members" resp = None \/ assoc "members" resp = Some (JArr []) ->
  gw_manage_group_member w p st
  = (Ok (Some ("Il gruppo " ++ g ++ " non ha membri.")%string),
     log (Call (members_list_request g)) (log Acquire st)).
Proof.
  intros Haction Hacq g Hexec Hnone.
  unfold gw_manage_group_member. run.
  rewrite (get_directory_service_acquired w st Hacq), Haction.
  unfold members_list_request in Hexec |- *.
  cbv beta iota delta [GroupMemberAction.eqb]. fold g. rewrite Hexec.
  cbv beta iota delta [py_get dict_get].
  destruct Hnone as [-> | ->]; reflexivity.
Qed.

Lemma group_without_members_witness :
  fst (gw_manage_group_member (deployment empty_directory)
         (ManageGroupMemberInput.Build "g@x.com" GroupMemberAction.LIST None
            (Some GroupMemberRole.MEMBER)) initial)
  = Ok (Some "Il gruppo g@x.com non ha membri."%string).
Proof.
  exact (f_equal fst
           (group_without_members (deployment empty_directory)
              (ManageGroupMemberInput.Build "g@x.com" GroupMemberAction.LIST None
                 (Some GroupMemberRole.MEMBER))
              initial [] eq_refl (conj eq_refl eq_refl) eq_refl (or_introl eq_refl))).
Defined.

(** X24.  With a non-empty [member_email]: add with a role executes one
    insert whose body holds the email and the name of the role, and confirms
    with that role; add without a role executes nothing and reports the
    attribute error; remove executes one delete for the member, whatever the
    role. *)
Theorem group_member_add_remove (w : world) (p : ManageGroupMemberInput.t)
    (st : state) (c : ascii) (rest : string) :
  ManageGroupMemberInput.member_email p = Some (String c rest) ->
  handle_acquired w ->
  let g := ManageGroupMemberInput.group_key p in
  let m := String c rest in
  let st0 := log Acquire st in
  (forall r,
      ManageGroupMemberInput.action p = GroupMemberAction.ADD ->
      ManageGroupMemberInput.role p = Some r ->
      gw_manage_group_member w p st
      = (match execute w (trace st0)
                 (members_insert_request g m (GroupMemberRole.value r)) with
         | Ok _ =>
             Ok (Some ("✅ **" ++ m ++ "** aggiunto al gruppo **" ++ g ++ "** come "
                       ++ GroupMemberRole.value r)%string)
         | Raise e => rbind (handle_google_error w e) (fun s => Ok (Some s))
         end,
         log (Call (members_insert_request g m (GroupMemberRole.value r))) st0))
  /\ (ManageGroupMemberInput.action p = GroupMemberAction.ADD ->
      ManageGroupMemberInput.role p = None ->
      gw_manage_group_member w p st
      = (Ok (Some ("Errore imprevisto: AttributeError: "
                   ++ "'NoneType' object has no attribute 'value'")%string),
         st0))
  /\ (ManageGroupMemberInput.action p = GroupMemberAction.REMOVE ->
      gw_manage_group_member w p st
      = (match execute w (trace st0) (members_delete_request g m) with
         | Ok _ =>
             Ok (Some ("🗑️ **" ++ m ++ "** rimosso dal gruppo **" ++ g ++ "**")%string)
         | Raise e => rbind (handle_google_error w e) (fun s => Ok (Some s))
         end,
         log (Call (members_delete_request g m)) st0)).
Proof.
  intros Hemail Hacq g m st0.
  split; [|split]; intros; unfold gw_manage_group_member; run;
    rewrite (get_directory_service_acquired w st Hacq);
    repeat match goal with
           | H : ManageGroupMemberInput.action p = _ |- _ => rewrite H; clear H
           | H : ManageGroupMemberInput.role p = _ |- _ => rewrite H; clear H
           end;
    rewrite Hemail;
    cbv beta iota delta [GroupMemberAction.eqb opt_str truthy negb String.eqb
                           role_value];
    unfold members_insert_request, members_delete_request, g, m, st0;
    try reflexivity;
    destruct (execute w _ _); reflexivity.
Qed.

Lemma group_member_add_remove_witness :
  gw_manage_group_member (deployment empty_directory)
    (ManageGroupMemberInput.Build "g@x.com" GroupMemberAction.ADD
       (Some "a@x.com"%string) (Some GroupMemberRole.MANAGER)) initial
  = (Ok (Some "✅ **a@x.com** aggiunto al gruppo **g@x.com** come MANAGER"%string),
     State [Acquire; Call (members_insert_request "g@x.com" "a@x.com" "MANAGER")] 0).
Proof.
  exact (proj1 (group_member_add_remove (deployment empty_directory)
                  (ManageGroupMemberInput.Build "g@x.com" GroupMemberAction.ADD
                     (Some "a@x.com"%string) (Some GroupMemberRole.MANAGER))
                  initial _ _ eq_refl (conj eq_refl eq_refl))
           GroupMemberRole.MANAGER eq_refl eq_refl).
Defined.

(** X25.  Add or remove without a member email, or with an empty one,
    executes no request; with a client handle the result is the warning
    that asks for the email. *)
Theorem group_member_missing_email (w : world) (p : ManageGroupMemberInput.t)
    (st : state) :
  ManageGroupMemberInput.action p <> GroupMemberAction.LIST ->
  ManageGroupMemberInput.member_email p = None
  \/ ManageGroupMemberInput.member_email p = Some EmptyString ->
  snd (gw_manage_group_member w p st) = log Acquire st
  /\ (handle_acquired w ->
      fst (gw_manage_group_member w p st) = Ok (Some member_warning)).
Proof.
  intros Haction Hemail.
  assert (Hlist : GroupMemberAction.eqb (ManageGroupMemberInput.action p)
                    GroupMemberAction.LIST = false)
    by (destruct (ManageGroupMemberInput.action p); simpl; congruence).
  assert (Hfalsy : truthy (opt_str (ManageGroupMemberInput.member_email p)) = false)
    by (destruct Hemail as [-> | ->]; reflexivity).
  split.
  - unfold gw_manage_group_member. run. rewrite Hlist, Hfalsy.
    destruct (get_directory_service_cases w st) as [-> | [e ->]]; reflexivity.
  - intros Hacq. unfold gw_manage_group_member. run.
    rewrite (get_directory_service_acquired w st Hacq), Hlist, Hfalsy. reflexivity.
Qed.

Lemma group_member_missing_email_witness :
  gw_manage_group_member (deployment empty_directory)
    (ManageGroupMemberInput.Build "g@x.com" GroupMemberAction.REMOVE
       (Some EmptyString) None) initial
  = (Ok (Some member_warning), State [Acquire] 0).
Proof.
  destruct (group_member_missing_email (deployment empty_directory)
              (ManageGroupMemberInput.Build "g@x.com" GroupMemberAction.REMOVE
                 (Some EmptyString) None)
              initial ltac:(discriminate) (or_intror eq_refl)) as [Hsnd Hfst].
  exact (f_equal2 pair (Hfst (conj eq_refl eq_refl)) Hsnd).
Defined.

(** *** Groups *)

Lemma group_lines_records (w : world) (gs : list (list (string * json))) :
  group_lines w (map JObj gs) = Ok (map (group_line w) gs).
Proof.
  induction gs as [|g gs IH]; simpl.
  - reflexivity.
  - now rewrite IH.
Qed.

(** X26.  Listing groups asks for the groups of one user when a non-empty
    user key is given and for those of the customer otherwise, never both.
    An answer without groups gives the none-found message; an answer with
    group records gives a heading with their number and one line for each,
    with [None], [N/A] and [?] for a missing email, name and member
    count. *)
Theorem list_groups_listing (w : world) (p : ListGroupsInput.t) (st : state)
    (resp : list (string * json)) :
  handle_acquired w ->
  execute w (trace (log Acquire st)) (groups_request w p) = Ok (JObj resp) ->
  (assoc "userKey" (kwargs (groups_request w p)) = None
   <-> assoc "customer" (kwargs (groups_request w p)) = Some (JStr (CUSTOMER_ID w)))
  /\ (assoc "userKey" (kwargs (groups_request w p)) <> None
      <-> assoc "customer" (kwargs (groups_request w p)) = None)
  /\ (assoc "groups" resp = None \/ assoc "groups" resp = Some (JArr []) ->
      fst (gw_list_groups w p st) = Ok "Nessun gruppo trovato."%string)
  /\ (forall g gs,
         assoc "groups" resp = Some (JArr (map JObj (g :: gs))) ->
         fst (gw_list_groups w p st)
         = Ok (String.concat nl
                 (("## Gruppi trovati: " ++ string_of_nat (S (List.length gs)) ++ nl)%string
                  :: map (group_line w) (g :: gs)))).
Proof.
  intros Hacq Hexec.
  assert (Hrun : fst (gw_list_groups w p st)
                 = (let groups := dict_get resp "groups" (JArr []) in
                    if negb (truthy groups) then Ok "Nessun gruppo trovato."%string
                    else
                      match rbind (py_len groups)
                              (fun n =>
                                 rbind (rbind (py_iter groups) (group_lines w))
                                   (fun lines =>
                                      Ok (String.concat nl
                                            (("## Gruppi trovati: " ++ string_of_nat n
                                              ++ nl)%string :: lines)))) with
                      | Ok out => Ok out
                      | Raise e => handle_google_error w e
                      end)).
  { unfold gw_list_groups. run.
    rewrite (get_directory_service_acquired w st Hacq).
    unfold groups_request in Hexec.
    destruct (ListGroupsInput.user_key p) as [[|c k]|];
      [ change (truthy (opt_str (Some EmptyString))) with false
      | change (truthy (opt_str (Some (String c k)))) with true
      | change (truthy (opt_str None)) with false ];
      cbv beta iota in Hexec |- *; cbn [opt_str];
      rewrite Hexec; cbv beta iota delta [py_get];
      destruct (negb (truthy (dict_get resp "groups" (JArr [])))); try reflexivity;
      destruct (py_len (dict_get resp "groups" (JArr []))); try reflexivity;
      destruct (rbind (py_iter (dict_get resp "groups" (JArr []))) (group_lines w));
      reflexivity. }
  split; [|split; [|split]].
  - unfold groups_request.
    destruct (ListGroupsInput.user_key p) as [[|c k]|]; simpl; split;
      intros; congruence.
  - unfold groups_request.
    destruct (ListGroupsInput.user_key p) as [[|c k]|]; simpl; split;
      intros; congruence.
  - intros Hnone. rewrite Hrun. unfold dict_get.
    destruct Hnone as [-> | ->]; reflexivity.
  - intros g gs Hsome. rewrite Hrun. unfold dict_get. rewrite Hsome.
    cbn [map truthy negb py_len py_iter rbind].
    change (JObj g :: map JObj gs) with (map JObj (g :: gs)).
    rewrite group_lines_records. cbn [rbind]. rewrite length_map. reflexivity.
Qed.

Lemma list_groups_listing_witness :
  fst (gw_list_groups (deployment group_directory)
         (ListGroupsInput.Build None (Some 100%Z)) initial)
  = Ok ("## Gruppi trovati: 2" ++ nl ++ nl
        ++ "- 👥 **it@x.com** — IT (3 membri)" ++ nl
        ++ "- 👥 **None** — N/A (? membri)")%string.
Proof.
  exact (proj2 (proj2 (proj2 (list_groups_listing (deployment group_directory)
                                (ListGroupsInput.Build None (Some 100%Z)) initial _
                                (conj eq_refl eq_refl) eq_refl)))
           [ ("email", JStr "it@x.com"); ("name", JStr "IT");
             ("directMembersCount", JStr "3") ] [[]] eq_refl).
Defined.

(** *** The random source *)

Lemma string_get_some (s : string) (i : nat) :
  i < String.length s -> exists c, String.get i s = Some c.
Proof.
  revert i. induction s as [|c0 s IH]; simpl; intros i Hi.
  - lia.
  - destruct i as [|i]; [eauto|]. apply IH. lia.
Qed.

Lemma choices_follow_entropy (w : world) (seq : string) (n : nat) (st : state) :
  seq <> EmptyString ->
  exists pw,
    choices w seq n st = (Ok pw, State (trace st) (n + draws st))
    /\ String.length pw = n
    /\ forall i,
        i < n ->
        String.get i pw
        = String.get (Nat.modulo (entropy w (draws st + i)) (String.length seq)) seq.
Proof.
  intros Hseq. revert st. induction n as [|n IH]; intros st.
  - exists EmptyString. simpl. destruct st. repeat split. intros i Hi. lia.
  - simpl. unfold bind, secrets_choice.
    destruct seq as [|c0 rest] eqn:Eseq; [congruence|]. rewrite <- Eseq in *.
    destruct (IH (State (trace st) (S (draws st)))) as (pw & Hrun & Hlen & Hget).
    assert (Hlt : Nat.modulo (entropy w (draws st)) (String.length seq)
                  < String.length seq).
    { apply Nat.mod_upper_bound. rewrite Eseq. simpl. lia. }
    destruct (string_get_some seq _ Hlt) as [c Hc].
    rewrite Hc, Hrun. unfold ret. cbn [trace draws].
    exists (String c pw). repeat split.
    + now rewrite Nat.add_succ_r.
    + simpl. now rewrite Hlen.
    + intros i Hi. destruct i as [|i].
      * simpl. rewrite Nat.add_0_r. now rewrite Hc.
      * simpl. rewrite (Hget i) by lia. cbn [draws].
        now rewrite Nat.add_succ_r.
Qed.

(** X27.  The generator never fails.  It takes one draw from the random
    source for each character, in order, the i-th character being the letter
    of the 69-letter alphabet the i-th draw points at; for a length that is
    zero or negative it returns the empty string without drawing.  It
    executes no request. *)
Theorem generate_temp_password_draws (w : world) (n : Z) (st : state) :
  exists pw,
    generate_temp_password w n st
    = (Ok pw, State (trace st) (Z.to_nat n + draws st))
    /\ String.length pw = Z.to_nat n
    /\ String.length (chars) = 69
    /\ (forall i,
           i < Z.to_nat n ->
           String.get i pw
           = String.get (Nat.modulo (entropy w (draws st + i)) 69) chars)
    /\ ((n <= 0)%Z -> pw = EmptyString).
Proof.
  unfold generate_temp_password.
  destruct (choices_follow_entropy w chars (Z.to_nat n) st chars_nonempty)
    as (pw & Hrun & Hlen & Hget).
  exists pw. split; [exact Hrun|]. split; [exact Hlen|].
  split; [reflexivity|]. split.
  - exact Hget.
  - intros Hn. replace (Z.to_nat n) with 0 in Hlen by lia.
    now destruct pw.
Qed.

(** *** Organizational units *)

Lemma ltb_asym (a b : string) : String.ltb a b = true -> String.ltb b a = false.
Proof.
  unfold String.ltb. rewrite (String.compare_antisym a b).
  destruct (String.compare b a); simpl; congruence.
Qed.

Definition key_order (a b : string * json) : Prop := String.ltb (fst b) (fst a) = false.

Lemma insert_by_key_perm (k : string) (x : json) (l : list (string * json)) :
  Permutation (insert_by_key k x l) ((k, x) :: l).
Proof.
  induction l as [|[k' x'] l IH]; simpl.
  - apply Permutation_refl.
  - destruct (String.ltb k' k).
    + eapply Permutation_trans; [apply perm_skip, IH | apply perm_swap].
    + apply Permutation_refl.
Qed.

Lemma sort_by_key_perm (l : list (string * json)) : Permutation (sort_by_key l) l.
Proof.
  induction l as [|[k x] l IH]; simpl.
  - constructor.
  - eapply Permutation_trans; [apply insert_by_key_perm | now apply perm_skip].
Qed.

Lemma insert_by_key_sorted (k : string) (x : json) (l : list (string * json)) :
  Sorted key_order l -> Sorted key_order (insert_by_key k x l).
Proof.
  induction l as [|[k' x'] l IH]; simpl; intros Hs.
  - repeat constructor.
  - inversion Hs as [|? ? Hsl Hhd]; subst.
    destruct (String.ltb k' k) eqn:Hlt.
    + constructor; [now apply IH|].
      destruct l as [|[k'' x''] l]; simpl.
      * constructor. unfold key_order. simpl. now apply ltb_asym.
      * destruct (String.ltb k'' k).
        -- constructor. now inversion Hhd.
        -- constructor. unfold key_order. simpl. now apply ltb_asym.
    + constructor; [exact Hs|]. constructor. exact Hlt.
Qed.

Lemma sort_by_key_sorted (l : list (string * json)) : Sorted key_order (sort_by_key l).
Proof.
  induction l as [|[k x] l IH]; simpl.
  - constructor.
  - now apply insert_by_key_sorted.
Qed.

Lemma unit_keys_units (items : list json) :
  Forall is_unit items ->
  unit_keys items = Ok (map (fun u => (JStr (path_key u), u)) items).
Proof.
  induction 1 as [|u rest (d & s & -> & Hpath) _ IH]; simpl.
  - reflexivity.
  - rewrite IH. unfold dict_get in Hpath |- *. simpl.
    unfold dict_get. now rewrite Hpath.
Qed.

Lemma string_keys_units (items : list json) :
  string_keys (map (fun u => (JStr (path_key u), u)) items)
  = Some (map (fun u => (path_key u, u)) items).
Proof.
  induction items as [|u rest IH]; simpl.
  - reflexivity.
  - now rewrite IH.
Qed.

Lemma unit_lines_records (w : world) (items : list json) :
  Forall is_record items -> unit_lines w items = Ok (map (unit_line w) items).
Proof.
  induction 1 as [|u rest [d ->] _ IH]; simpl.
  - reflexivity.
  - now rewrite IH.
Qed.

Lemma sorted_keys_sorted_paths (l : list (string * json)) :
  Sorted key_order l ->
  Forall (fun kx => fst kx = path_key (snd kx)) l ->
  Sorted by_path (map snd l).
Proof.
  induction 1 as [|a l Hl IH Hhd]; intros Hkeys; simpl.
  - constructor.
  - inversion Hkeys as [|? ? Ha Hrest]; subst.
    constructor; [now apply IH|].
    destruct Hhd as [|b l' Hab]; simpl; constructor.
    inversion Hrest as [|? ? Hb _]; subst.
    unfold by_path. unfold key_order in Hab. now rewrite <- Ha, <- Hb.
Qed.

Lemma sorted_units (items : list json) :
  Permutation (map snd (sort_by_key (map (fun u => (path_key u, u)) items))) items
  /\ Sorted by_path (map snd (sort_by_key (map (fun u => (path_key u, u)) items))).
Proof.
  set (keyed := map (fun u => (path_key u, u)) items).
  assert (Hperm : Permutation (sort_by_key keyed) keyed) by apply sort_by_key_perm.
  split.
  - assert (Hid : map snd keyed = items)
      by (unfold keyed; rewrite map_map; simpl; apply map_id).
    eapply Permutation_trans; [apply Permutation_map, Hperm|].
    rewrite Hid. apply Permutation_refl.
  - apply sorted_keys_sorted_paths; [apply sort_by_key_sorted|].
    eapply Permutation_Forall; [apply Permutation_sym, Hperm|].
    unfold keyed. apply Forall_forall. intros kx Hin.
    apply in_map_iff in Hin as (u & <- & _). reflexivity.
Qed.

(** What [gw_list_org_units] returns once the list call has answered. *)
Lemma gw_list_org_units_answered (w : world)
    (other : list (json * json) -> result (list json)) (st : state) (resp : json) :
  handle_acquired w ->
  execute w (trace (log Acquire st)) (orgunits_request w) = Ok resp ->
  gw_list_org_units w other st
  = (match py_get resp "organizationUnits" (JArr []) with
     | Raise e => handle_google_error w e
     | Ok units =>
         if negb (truthy units) then Ok no_org_units
         else
           match rbind (py_iter units)
                   (fun items => rbind (sorted_by_path other items) (unit_lines w)) with
           | Ok lines =>
               Ok (String.concat nl (("## Unità Organizzative" ++ nl)%string :: lines))
           | Raise e => handle_google_error w e
           end
     end,
     log (Call (orgunits_request w)) (log Acquire st)).
Proof.
  intros Hacq Hexec. unfold gw_list_org_units. run.
  rewrite (get_directory_service_acquired w st Hacq).
  unfold orgunits_request in Hexec |- *. rewrite Hexec.
  destruct (py_get resp "organizationUnits" (JArr [])) as [units|e]; [|reflexivity].
  destruct (negb (truthy units)); [reflexivity|].
  destruct (rbind (py_iter units) _); reflexivity.
Qed.

(** X28.  When the answer holds a list of units (records whose path, when
    present, is a string), the listing has one line for each unit of the
    answer and no other, in the order of their paths, a unit without path
    counting as the empty path and so coming first; each line shows the
    path ([None] when missing), the name and the identifier of the unit. *)
Theorem org_units_listed_by_path (w : world)
    (other : list (json * json) -> result (list json)) (st : state)
    (resp : list (string * json)) (u : json) (us : list json) :
  handle_acquired w ->
  execute w (trace (log Acquire st)) (orgunits_request w) = Ok (JObj resp) ->
  assoc "organizationUnits" resp = Some (JArr (u :: us)) ->
  Forall is_unit (u :: us) ->
  exists sorted,
    Permutation sorted (u :: us)
    /\ Sorted by_path sorted
    /\ fst (gw_list_org_units w other st)
       = Ok (String.concat nl
               (("## Unità Organizzative" ++ nl)%string :: map (unit_line w) sorted)).
Proof.
  intros Hacq Hexec Hunits Hall.
  destruct (sorted_units (u :: us)) as [Hperm Hsorted].
  eexists. split; [exact Hperm|]. split; [exact Hsorted|].
  rewrite (gw_list_org_units_answered w other st _ Hacq Hexec). cbn [fst].
  unfold py_get, dict_get. rewrite Hunits.
  cbn [truthy negb py_iter rbind]. unfold sorted_by_path.
  rewrite (unit_keys_units _ Hall). cbn [rbind].
  rewrite string_keys_units. cbn [rbind].
  rewrite unit_lines_records; [reflexivity|].
  eapply Permutation_Forall; [apply Permutation_sym, Hperm|].
  eapply Forall_impl; [|exact Hall].
  intros a (d & s & -> & _). now exists d.
Qed.

Lemma org_units_listed_by_path_witness :
  exists sorted,
    Permutation sorted [unit_sales; unit_it; unit_bare]
    /\ Sorted by_path sorted
    /\ fst (gw_list_org_units (deployment unit_directory) unordered initial)
       = Ok (String.concat nl
               (("## Unità Organizzative" ++ nl)%string
                :: map (unit_line (deployment unit_directory)) sorted)).
Proof.
  apply (org_units_listed_by_path (deployment unit_directory) unordered initial
           [("organizationUnits", JArr [unit_sales; unit_it; unit_bare])]
           unit_sales [unit_it; unit_bare] (conj eq_refl eq_refl) eq_refl eq_refl).
  repeat constructor; eexists; eexists; split; reflexivity.
Defined.

(** X29.  When the answer has no units, or an empty list of them,
    [gw_list_org_units] returns the root-only message; in every case it has
    executed one request, the list call for all unit types of the
    customer. *)
Theorem org_units_none (w : world)
    (other : list (json * json) -> result (list json)) (st : state)
    (resp : list (string * json)) :
  handle_acquired w ->
  execute w (trace (log Acquire st)) (orgunits_request w) = Ok (JObj resp) ->
  assoc "organizationUnits" resp = None
  \/ assoc "organizationUnits" resp = Some (JArr []) ->
  gw_list_org_units w other st
  = (Ok no_org_units, log (Call (orgunits_request w)) (log Acquire st)).
Proof.
  intros Hacq Hexec Hnone.
  rewrite (gw_list_org_units_answered w other st _ Hacq Hexec).
  unfold py_get, dict_get. destruct Hnone as [-> | ->]; reflexivity.
Qed.

Lemma org_units_none_witness :
  gw_list_org_units (deployment empty_directory) unordered initial
  = (Ok no_org_units,
     State [Acquire;
            Call (Request orgunits_list
                    [("customerId", JStr "my_customer"); ("type", JStr "all")])] 0).
Proof.
  exact (org_units_none (deployment empty_directory) unordered initial []
           (conj eq_refl eq_refl) eq_refl (or_introl eq_refl)).
Defined.
